(** * E-vote: the vote-casting handler and the admin tally derivations

    A shallow embedding of the two React components of the repository:

    - [CandidateList] (src/CandidateList.tsx): [handleVote], the
      [idle -> submitting -> idle] submission handler;
    - [AdminPanel] (the admin view): [fetchVoteResults], [fetchVoters],
      [handleAddCandidate], [totalVotes] and the per-row [percentage];
    - [CandidateListView] and [AdminPanelView]: the rest of the two
      components, [fetchCandidates], [handleDeleteCandidate] and the
      conditions under which each part of the page is rendered.

    Handlers are [async] functions with [try]/[catch]/[finally]; they are
    embedded in a small state-and-exception monad whose state is the
    component's [useState] cells together with the log of observable
    effects (toasts, console output, backend requests, callbacks).  The
    answer of the backend to each [await] is an input of the handler. *)

From Stdlib Require Import List String ZArith Bool Lia Permutation Sorted.
From Stdlib Require Import Uint63 Floats.
Import ListNotations.

Local Open Scope string_scope.
Local Open Scope list_scope.

(** ** JavaScript effects *)

Module Js.

(** The error object of the data client; only [code] is inspected. *)
Record PostgrestError := { code : string; message : string }.

(** A value that a [throw] or a rejected promise carries. *)
Inductive Thrown :=
  | ThrownPostgrest (e : PostgrestError)
  | ThrownOther (description : string).

(** The [{ data, error }] object a query resolves to. *)
Record Response (D : Type) := { data : option D; error : option PostgrestError }.
Arguments data {D} _.
Arguments error {D} _.

(** What an [await] observes: the promise resolves or rejects. *)
Inductive Awaited (A : Type) :=
  | Resolved (r : A)
  | Rejected (e : Thrown).
Arguments Resolved {A} r.
Arguments Rejected {A} e.

Inductive ToastKind := ToastError | ToastSuccess.

(** How a statement list ends. *)
Inductive Completion (A : Type) :=
  | Normal (a : A)
  | Throw (e : Thrown).
Arguments Normal {A} a.
Arguments Throw {A} e.

Section Monad.
(** [St]: the component's state cells; [Ev]: its observable effects,
    logged oldest first. *)
Context {St Ev : Type}.

Definition M (A : Type) : Type := St * list Ev -> Completion A * (St * list Ev).

Definition ret {A} (a : A) : M A := fun w => (Normal a, w).

Definition bind {A B} (m : M A) (k : A -> M B) : M B :=
  fun w =>
    match m w with
    | (Normal a, w') => k a w'
    | (Throw e, w') => (Throw e, w')
    end.

Definition throw {A} (e : Thrown) : M A := fun w => (Throw e, w).

Definition emit (ev : Ev) : M unit :=
  fun w => (Normal tt, (fst w, snd w ++ [ev])).

Definition get_state : M St := fun w => (Normal (fst w), w).

Definition modify_state (f : St -> St) : M unit :=
  fun w => (Normal tt, (f (fst w), snd w)).

(** [try { body } catch (e) { handler e }] *)
Definition try_catch {A} (body : M A) (handler : Thrown -> M A) : M A :=
  fun w =>
    match body w with
    | (Normal a, w') => (Normal a, w')
    | (Throw e, w') => handler e w'
    end.

(** [try { body } finally { cleanup }]: [cleanup] runs on both
    completions; a throw of [cleanup] replaces the completion of
    [body]. *)
Definition try_finally {A} (body : M A) (cleanup : M unit) : M A :=
  fun w =>
    match body w with
    | (c, w') =>
        match cleanup w' with
        | (Normal _, w'') => (c, w'')
        | (Throw e, w'') => (Throw e, w'')
        end
    end.

(** [await p] where the environment settles [p] as [a]; [request] is the
    call that built the promise. *)
Definition await {A} (request : Ev) (a : Awaited A) : M A :=
  bind (emit request)
       (fun _ => match a with
                 | Resolved r => ret r
                 | Rejected e => throw e
                 end).

Definition run {A} (m : M A) (s : St) : Completion A * (St * list Ev) := m (s, []).
Definition final_state {A} (m : M A) (s : St) : St := fst (snd (run m s)).
Definition effects {A} (m : M A) (s : St) : list Ev := snd (snd (run m s)).
Definition completion {A} (m : M A) (s : St) : Completion A := fst (run m s).
End Monad.

Arguments M : clear implicits.

Declare Scope js_scope.
Delimit Scope js_scope with js.
Notation "x <- m ;; k" := (bind m (fun x => k))
  (at level 61, m at next level, right associativity) : js_scope.
Notation "m ;; k" := (bind m (fun _ => k))
  (at level 61, right associativity) : js_scope.
Notation "'TRY' body 'CATCH' e '=>' handler 'FINALLY' cleanup 'END'" :=
  (try_finally (try_catch body (fun e => handler)) cleanup)
  (at level 0, e name, body at level 200, handler at level 200,
   cleanup at level 200) : js_scope.
Notation "'TRY' body 'CATCH' e '=>' handler 'END'" :=
  (try_catch body (fun e => handler))
  (at level 0, e name, body at level 200, handler at level 200) : js_scope.

(** [a === b] on strings. *)
Definition strict_eq (a b : string) : bool := String.eqb a b.

(** [s || null] on a string: the empty string is the only falsy one. *)
Definition or_null (s : string) : option string :=
  match s with
  | EmptyString => None
  | _ => Some s
  end.

(** [Array.prototype.sort(cmp)]: a stable sort (ECMAScript 2019); [x] is
    placed before [y] when [cmp x y <= 0].  For a comparator that is a
    consistent ordering the result of a stable sort is unique, so the
    algorithm the engine picks is not observable. *)
Fixpoint sort_insert {A} (cmp : A -> A -> Z) (x : A) (l : list A) : list A :=
  match l with
  | [] => [x]
  | y :: ys => if (cmp x y <=? 0)%Z then x :: l else y :: sort_insert cmp x ys
  end.

Definition array_sort {A} (cmp : A -> A -> Z) (l : list A) : list A :=
  fold_right (sort_insert cmp) [] l.

(** The [number] for an integer: the binary64 value nearest to it (ties
    to even), which is the integer itself up to 2^53 in magnitude. *)
Definition number_of_Z (z : Z) : float :=
  SF2Prim (binary_normalize prec emax z 0 false).

End Js.

Import Js.
Local Open Scope js_scope.

(** ** The voter view: src/CandidateList.tsx *)

Module CandidateList.

(** The [useState] cells of the component. *)
Record State := {
    loading : bool;
    votingFor : option string
  }.

Definition with_votingFor (v : option string) (s : State) : State :=
  {| loading := loading s; votingFor := v |}.

Inductive Event :=
  | Toast (kind : ToastKind) (msg : string)
  | ConsoleError (msg : string) (e : Thrown)
  | InsertVote (voter_id candidate_id : string)
  | CallOnVoteSuccess.

Definition event_is_insert (ev : Event) : bool :=
  match ev with InsertVote _ _ => true | _ => false end.

Definition event_is_callback (ev : Event) : bool :=
  match ev with CallOnVoteSuccess => true | _ => false end.

(** What the [catch] block of [handleVote] adds to the log. *)
Definition generic_failure (e : Thrown) : list Event :=
  [ConsoleError "Error casting vote:" e; Toast ToastError "Failed to cast vote"].

Section Component.
(** Props. *)
Variable userId : string.
Variable hasVoted : bool.
(** The parent's callback is opaque to this component: it is called,
    and it returns or throws. *)
Variable onVoteSuccess_throws : option Thrown.

(** The environment: how the insert into [votes] settles. *)
Variable insert_reply : Awaited (Response unit).

Definition setVotingFor (v : option string) : M State Event unit :=
  modify_state (with_votingFor v).

Definition toast_error (msg : string) : M State Event unit :=
  emit (Toast ToastError msg).

Definition toast_success (msg : string) : M State Event unit :=
  emit (Toast ToastSuccess msg).

Definition console_error (msg : string) (e : Thrown) : M State Event unit :=
  emit (ConsoleError msg e).

Definition onVoteSuccess : M State Event unit :=
  emit CallOnVoteSuccess ;;
  match onVoteSuccess_throws with
  | Some e => throw e
  | None => ret tt
  end.

Definition handleVote (candidateId : string) : M State Event unit :=
  if hasVoted then
    toast_error "You have already voted!"
  else
    setVotingFor (Some candidateId) ;;
    TRY
      r <- await (InsertVote userId candidateId) insert_reply ;;
      match error r with
      | Some err =>
          if strict_eq (code err) "23505" then
            toast_error "You have already cast your vote!"
          else
            throw (ThrownPostgrest err)
      | None =>
          toast_success "Vote cast successfully!" ;;
          onVoteSuccess
      end
    CATCH e =>
      console_error "Error casting vote:" e ;;
      toast_error "Failed to cast vote"
    FINALLY
      setVotingFor None
    END.

(** The button is disabled while the flag is set or a submission is
    in flight: [disabled={hasVoted || votingFor !== null}]. *)
Definition button_disabled (s : State) : bool :=
  hasVoted || match votingFor s with Some _ => true | None => false end.
End Component.

End CandidateList.

(** ** The admin view *)

Module Candidate.
Record t := {
    id : string;
    name : string;
    party : string;
    description : option string;
    photo_url : option string
  }.
End Candidate.

Module Vote.
Record t := { voter_id : string; candidate_id : string }.
End Vote.

Module Profile.
Record t := {
    id : string;
    email : string;
    full_name : option string;
    created_at : string
  }.
End Profile.

Module VoteCount.
Record t := {
    candidate_id : string;
    candidate_name : string;
    candidate_party : string;
    vote_count : Z
  }.
End VoteCount.

Module Voter.
Record t := {
    id : string;
    email : string;
    full_name : option string;
    created_at : string;
    has_voted : bool
  }.
End Voter.

(** The form cells: always text. *)
Module NewCandidate.
Record t := {
    name : string;
    party : string;
    description : string;
    photo_url : string
  }.
End NewCandidate.

(** The object handed to [insert] on [candidates]. *)
Module CandidateInsert.
Record t := {
    name : string;
    party : string;
    description : option string;
    photo_url : option string
  }.
End CandidateInsert.

Module AdminPanel.

Record State := {
    candidates : list Candidate.t;
    voteResults : list VoteCount.t;
    voters : list Voter.t;
    loading : bool;
    newCandidate : NewCandidate.t
  }.

Definition with_voteResults (r : list VoteCount.t) (s : State) : State :=
  {| candidates := candidates s; voteResults := r; voters := voters s;
     loading := loading s; newCandidate := newCandidate s |}.

Definition with_voters (v : list Voter.t) (s : State) : State :=
  {| candidates := candidates s; voteResults := voteResults s; voters := v;
     loading := loading s; newCandidate := newCandidate s |}.

Definition with_newCandidate (n : NewCandidate.t) (s : State) : State :=
  {| candidates := candidates s; voteResults := voteResults s; voters := voters s;
     loading := loading s; newCandidate := n |}.

(** The fetch functions a handler starts without awaiting them. *)
Inductive Task := FetchCandidates | FetchVoteResults | FetchVoters.

Inductive Event :=
  | Toast (kind : ToastKind) (msg : string)
  | ConsoleError (msg : string) (e : Thrown)
  | PreventDefault
  | SelectVotes (columns : string)
  | SelectCandidates (columns : string)
  | SelectProfiles (columns : string) (order_by : string) (ascending : bool)
  | InsertCandidate (row : CandidateInsert.t)
  | Start (task : Task).

Definition event_is_insert (ev : Event) : bool :=
  match ev with InsertCandidate _ => true | _ => false end.

Definition toast_error (msg : string) : M State Event unit :=
  emit (Toast ToastError msg).

Definition toast_success (msg : string) : M State Event unit :=
  emit (Toast ToastSuccess msg).

Definition console_error (msg : string) (e : Thrown) : M State Event unit :=
  emit (ConsoleError msg e).

Definition setVoteResults (r : list VoteCount.t) : M State Event unit :=
  modify_state (with_voteResults r).

Definition setVoters (v : list Voter.t) : M State Event unit :=
  modify_state (with_voters v).

Definition setNewCandidate (n : NewCandidate.t) : M State Event unit :=
  modify_state (with_newCandidate n).

(** [if (error) throw error;] *)
Definition throw_if_error {D} (r : Response D) : M State Event unit :=
  match error r with
  | Some e => throw (ThrownPostgrest e)
  | None => ret tt
  end.

(** Reading a property of [null]. *)
Definition null_dereference : Thrown :=
  ThrownOther "TypeError: Cannot read properties of null".

(** Lines 95-100: one object per candidate, counting the matching votes. *)
Definition voteCounts (votesData : list Vote.t) (candidatesData : list Candidate.t)
  : list VoteCount.t :=
  map (fun candidate =>
         {| VoteCount.candidate_id := Candidate.id candidate;
            VoteCount.candidate_name := Candidate.name candidate;
            VoteCount.candidate_party := Candidate.party candidate;
            VoteCount.vote_count :=
              Z.of_nat (List.length (filter (fun vote =>
                                          strict_eq (Vote.candidate_id vote)
                                                    (Candidate.id candidate))
                                       votesData)) |})
      candidatesData.

(** The same lines on the [data] fields as the client types them, [null]
    included: [candidatesData.map] needs an array, and the callback reads
    [votesData.filter] once per candidate. *)
Definition voteCounts_of_data (votesData : option (list Vote.t))
  (candidatesData : option (list Candidate.t)) : M State Event (list VoteCount.t) :=
  match candidatesData with
  | None => throw null_dereference
  | Some cs =>
      match votesData, cs with
      | Some vs, _ => ret (voteCounts vs cs)
      | None, [] => ret []
      | None, _ :: _ => throw null_dereference
      end
  end.

(** Line 102: [(a, b) => b.vote_count - a.vote_count]. *)
Definition by_vote_count_desc (a b : VoteCount.t) : Z :=
  (VoteCount.vote_count b - VoteCount.vote_count a)%Z.

Section FetchVoteResults.
Variable votes_reply : Awaited (Response (list Vote.t)).
Variable candidates_reply : Awaited (Response (list Candidate.t)).

Definition fetchVoteResults : M State Event unit :=
  TRY
    rv <- await (SelectVotes "candidate_id") votes_reply ;;
    throw_if_error rv ;;
    rc <- await (SelectCandidates "id, name, party") candidates_reply ;;
    throw_if_error rc ;;
    counted <- voteCounts_of_data (data rv) (data rc) ;;
    setVoteResults (array_sort by_vote_count_desc counted)
  CATCH e =>
    console_error "Error fetching vote results:" e ;;
    toast_error "Failed to load vote results"
  END.
End FetchVoteResults.

(** Lines 125-128: [{ ...profile, has_voted: votesData.some(...) }]. *)
Definition votersWithStatus (profilesData : list Profile.t) (votesData : list Vote.t)
  : list Voter.t :=
  map (fun profile =>
         {| Voter.id := Profile.id profile;
            Voter.email := Profile.email profile;
            Voter.full_name := Profile.full_name profile;
            Voter.created_at := Profile.created_at profile;
            Voter.has_voted :=
              existsb (fun vote => strict_eq (Vote.voter_id vote) (Profile.id profile))
                      votesData |})
      profilesData.

Definition votersWithStatus_of_data (profilesData : option (list Profile.t))
  (votesData : option (list Vote.t)) : M State Event (list Voter.t) :=
  match profilesData with
  | None => throw null_dereference
  | Some ps =>
      match votesData, ps with
      | Some vs, _ => ret (votersWithStatus ps vs)
      | None, [] => ret []
      | None, _ :: _ => throw null_dereference
      end
  end.

Section FetchVoters.
Variable profiles_reply : Awaited (Response (list Profile.t)).
Variable votes_reply : Awaited (Response (list Vote.t)).

Definition fetchVoters : M State Event unit :=
  TRY
    rp <- await (SelectProfiles "id, email, full_name, created_at" "created_at" false)
                profiles_reply ;;
    throw_if_error rp ;;
    rv <- await (SelectVotes "voter_id") votes_reply ;;
    throw_if_error rv ;;
    labelled <- votersWithStatus_of_data (data rp) (data rv) ;;
    setVoters labelled
  CATCH e =>
    console_error "Error fetching voters:" e ;;
    toast_error "Failed to load voters"
  END.
End FetchVoters.

(** The object literal of lines 141-146, built from the form cells. *)
Definition candidate_row (form : NewCandidate.t) : CandidateInsert.t :=
  {| CandidateInsert.name := NewCandidate.name form;
     CandidateInsert.party := NewCandidate.party form;
     CandidateInsert.description := or_null (NewCandidate.description form);
     CandidateInsert.photo_url := or_null (NewCandidate.photo_url form) |}.

Definition empty_form : NewCandidate.t :=
  {| NewCandidate.name := ""; NewCandidate.party := "";
     NewCandidate.description := ""; NewCandidate.photo_url := "" |}.

Section HandleAddCandidate.
Variable insert_reply : Awaited (Response unit).

(** [fetchCandidates()] and [fetchVoteResults()] are called and not
    awaited: the handler starts them and goes on. *)
Definition handleAddCandidate : M State Event unit :=
  emit PreventDefault ;;
  s <- get_state ;;
  TRY
    r <- await (InsertCandidate (candidate_row (newCandidate s))) insert_reply ;;
    throw_if_error r ;;
    toast_success "Candidate added successfully" ;;
    setNewCandidate empty_form ;;
    emit (Start FetchCandidates) ;;
    emit (Start FetchVoteResults)
  CATCH e =>
    console_error "Error adding candidate:" e ;;
    toast_error "Failed to add candidate"
  END.
End HandleAddCandidate.

(** Line 175: [voteResults.reduce((sum, result) => sum + result.vote_count, 0)]. *)
Definition totalVotes (voteResults : list VoteCount.t) : Z :=
  fold_left (fun sum result => (sum + VoteCount.vote_count result)%Z) voteResults 0%Z.

(** A division the renderer evaluates, with its integer operands. *)
Record Division := { numerator : Z; denominator : Z }.

(** Arithmetic that keeps the record of the divisions it evaluated, in
    order: a value together with that record. *)
Definition Arith (A : Type) : Type := (A * list Division)%type.

Definition pure {A} (a : A) : Arith A := (a, []).

Definition and_then {A B} (m : Arith A) (k : A -> Arith B) : Arith B :=
  let (b, later) := k (fst m) in (b, snd m ++ later).

(** [a / b] on two integer-valued numbers: the binary64 quotient; the
    only operation that adds to the record. *)
Definition divide (a b : Z) : Arith float :=
  (PrimFloat.div (number_of_Z a) (number_of_Z b),
   [{| numerator := a; denominator := b |}]).

(** Line 209:
    [totalVotes > 0 ? (result.vote_count / totalVotes) * 100 : 0].
    The conditional evaluates one branch only. *)
Definition percentage (result : VoteCount.t) (totalVotes : Z) : Arith float :=
  if (0 <? totalVotes)%Z then
    and_then (divide (VoteCount.vote_count result) totalVotes)
             (fun quotient => pure (PrimFloat.mul quotient (number_of_Z 100)))
  else
    pure (number_of_Z 0).

(** Lines 208-236: one row per entry of [voteResults], in order. *)
Definition result_rows (voteResults : list VoteCount.t)
  : list (VoteCount.t * (float * list Division)) :=
  map (fun result => (result, percentage result (totalVotes voteResults))) voteResults.

(** A query that resolved with rows and no error. *)
Definition rows {D} (d : D) : Awaited (Response D) :=
  Resolved {| data := Some d; error := None |}.

(** The first render: every cell at its [useState] initial value. *)
Definition initial : State :=
  {| candidates := []; voteResults := []; voters := []; loading := true;
     newCandidate := empty_form |}.

End AdminPanel.

(** ** The tally as the specification words it

    §4.2: one entry per candidate with
    [count = |{votes : vote.candidate == candidate}|], written with the
    library's occurrence count over the votes' candidate references. *)

Module TallySpec.

Definition count (votes : list Vote.t) (candidate : Candidate.t) : Z :=
  Z.of_nat (count_occ string_dec (map Vote.candidate_id votes) (Candidate.id candidate)).

Definition entry (votes : list Vote.t) (candidate : Candidate.t) : VoteCount.t :=
  {| VoteCount.candidate_id := Candidate.id candidate;
     VoteCount.candidate_name := Candidate.name candidate;
     VoteCount.candidate_party := Candidate.party candidate;
     VoteCount.vote_count := count votes candidate |}.

(** A vote record that references one of the fetched candidates. *)
Definition references (candidates : list Candidate.t) (vote : Vote.t) : bool :=
  existsb (fun candidate => strict_eq (Vote.candidate_id vote) (Candidate.id candidate))
          candidates.

End TallySpec.

(** ** Sample rows, used where a property is exhibited on concrete data *)

Module Scenario.

Definition alice : Candidate.t :=
  {| Candidate.id := "a"; Candidate.name := "Alice"; Candidate.party := "X";
     Candidate.description := None; Candidate.photo_url := None |}.

Definition bob : Candidate.t :=
  {| Candidate.id := "b"; Candidate.name := "Bob"; Candidate.party := "Y";
     Candidate.description := None; Candidate.photo_url := None |}.

Definition vote (voter candidate : string) : Vote.t :=
  {| Vote.voter_id := voter; Vote.candidate_id := candidate |}.

Definition profile (user : string) : Profile.t :=
  {| Profile.id := user; Profile.email := user ++ "@example.org";
     Profile.full_name := None; Profile.created_at := "2024-01-01" |}.

Definition entry (candidate : Candidate.t) (n : Z) : VoteCount.t :=
  {| VoteCount.candidate_id := Candidate.id candidate;
     VoteCount.candidate_name := Candidate.name candidate;
     VoteCount.candidate_party := Candidate.party candidate;
     VoteCount.vote_count := n |}.

Definition form (description photo_url : string) : NewCandidate.t :=
  {| NewCandidate.name := "Carol"; NewCandidate.party := "Z";
     NewCandidate.description := description;
     NewCandidate.photo_url := photo_url |}.

End Scenario.

(** ** Replies that make a handler throw *)

Module Reply.

(** What [const { error } = await query; if (error) throw error;] throws,
    if it throws: the rejection reason, or the error object of the
    reply. *)
Definition failure {D} (reply : Awaited (Response D)) : option Thrown :=
  match reply with
  | Rejected e => Some e
  | Resolved r =>
      match error r with
      | Some e => Some (ThrownPostgrest e)
      | None => None
      end
  end.

End Reply.

(** ** The voter view, continued: the roster fetch and what is rendered *)

Module CandidateListView.

(** The cells of [CandidateList] with the [candidates] cell beside them. *)
Record State := {
    candidates : list Candidate.t;
    cells : CandidateList.State
  }.

Definition with_candidates (c : list Candidate.t) (s : State) : State :=
  {| candidates := c; cells := cells s |}.

Definition with_loading (b : bool) (s : State) : State :=
  {| candidates := candidates s;
     cells := {| CandidateList.loading := b;
                 CandidateList.votingFor := CandidateList.votingFor (cells s) |} |}.

Definition loading (s : State) : bool := CandidateList.loading (cells s).
Definition votingFor (s : State) : option string := CandidateList.votingFor (cells s).

(** The first render: [useState([])], [useState(true)], [useState(null)]. *)
Definition initial : State :=
  {| candidates := [];
     cells := {| CandidateList.loading := true; CandidateList.votingFor := None |} |}.

Inductive Event :=
  | Toast (kind : ToastKind) (msg : string)
  | ConsoleError (msg : string) (e : Thrown)
  | SelectCandidates (columns order_by : string).

(** Lines 32-47. *)
Definition fetchCandidates (reply : Awaited (Response (list Candidate.t)))
    : M State Event unit :=
  TRY
    r <- await (SelectCandidates "*" "name") reply ;;
    match error r with
    | Some e => throw (ThrownPostgrest e)
    | None => ret tt
    end ;;
    modify_state (with_candidates (match data r with Some d => d | None => [] end))
  CATCH e =>
    emit (ConsoleError "Error fetching candidates:" e) ;;
    emit (Toast ToastError "Failed to load candidates")
  FINALLY
    modify_state (with_loading false)
  END.

(** Lines 141-153: what the button of a card reads. *)
Inductive ButtonLabel := LabelVoted | LabelCasting | LabelVote.

Record Card := {
    key : string;
    title : string;
    badge : string;
    body : option string;
    disabled : bool;
    label : ButtonLabel
  }.

(** Lines 83-160: the three things the component can return. *)
Inductive Screen :=
  | Skeleton
  | NoCandidates
  | Roster (count : nat) (cards : list Card).

Section Render.
Variable hasVoted : bool.

(** [candidate.description && <p>...</p>]: [null] and the empty string
    render nothing. *)
Definition shown_description (candidate : Candidate.t) : option string :=
  match Candidate.description candidate with
  | Some d => or_null d
  | None => None
  end.

Definition button_label (s : State) (candidate : Candidate.t) : ButtonLabel :=
  if hasVoted then LabelVoted
  else match votingFor s with
       | Some c => if strict_eq c (Candidate.id candidate) then LabelCasting else LabelVote
       | None => LabelVote
       end.

Definition card (s : State) (candidate : Candidate.t) : Card :=
  {| key := Candidate.id candidate;
     title := Candidate.name candidate;
     badge := Candidate.party candidate;
     body := shown_description candidate;
     disabled := CandidateList.button_disabled hasVoted (cells s);
     label := button_label s candidate |}.

Definition render (s : State) : Screen :=
  if loading s then Skeleton
  else match candidates s with
       | [] => NoCandidates
       | _ :: _ => Roster (List.length (candidates s)) (map (card s) (candidates s))
       end.
End Render.

End CandidateListView.

(** ** The admin view, continued: roster fetch, deletion, what is rendered *)

Module AdminPanelView.

Definition with_candidates (c : list Candidate.t) (s : AdminPanel.State)
    : AdminPanel.State :=
  {| AdminPanel.candidates := c;
     AdminPanel.voteResults := AdminPanel.voteResults s;
     AdminPanel.voters := AdminPanel.voters s;
     AdminPanel.loading := AdminPanel.loading s;
     AdminPanel.newCandidate := AdminPanel.newCandidate s |}.

Definition with_loading (b : bool) (s : AdminPanel.State) : AdminPanel.State :=
  {| AdminPanel.candidates := AdminPanel.candidates s;
     AdminPanel.voteResults := AdminPanel.voteResults s;
     AdminPanel.voters := AdminPanel.voters s;
     AdminPanel.loading := b;
     AdminPanel.newCandidate := AdminPanel.newCandidate s |}.

Inductive Event :=
  | Toast (kind : ToastKind) (msg : string)
  | ConsoleError (msg : string) (e : Thrown)
  | SelectCandidates (columns order_by : string)
  | DeleteCandidate (column value : string)
  | Start (task : AdminPanel.Task).

Definition event_is_delete (ev : Event) : bool :=
  match ev with DeleteCandidate _ _ => true | _ => false end.

Definition event_is_start (ev : Event) : bool :=
  match ev with Start _ => true | _ => false end.

Definition throw_if_error {D} (r : Response D) : M AdminPanel.State Event unit :=
  match error r with
  | Some e => throw (ThrownPostgrest e)
  | None => ret tt
  end.

(** Lines 64-79. *)
Definition fetchCandidates (reply : Awaited (Response (list Candidate.t)))
    : M AdminPanel.State Event unit :=
  TRY
    r <- await (SelectCandidates "*" "name") reply ;;
    throw_if_error r ;;
    modify_state (with_candidates (match data r with Some d => d | None => [] end))
  CATCH e =>
    emit (ConsoleError "Error fetching candidates:" e) ;;
    emit (Toast ToastError "Failed to load candidates")
  FINALLY
    modify_state (with_loading false)
  END.

(** Lines 160-173. *)
Definition handleDeleteCandidate (id : string) (reply : Awaited (Response unit))
    : M AdminPanel.State Event unit :=
  TRY
    r <- await (DeleteCandidate "id" id) reply ;;
    throw_if_error r ;;
    emit (Toast ToastSuccess "Candidate deleted successfully") ;;
    emit (Start AdminPanel.FetchCandidates) ;;
    emit (Start AdminPanel.FetchVoteResults)
  CATCH e =>
    emit (ConsoleError "Error deleting candidate:" e) ;;
    emit (Toast ToastError "Failed to delete candidate")
  END.

(** Lines 238-246: the lines under the result rows. *)
Inductive Footer := NoVotesCastYet | TotalVotes (n : Z).

Definition results_footer (voteResults : list VoteCount.t) : list Footer :=
  let totalVotes := AdminPanel.totalVotes voteResults in
  (if (totalVotes =? 0)%Z then [NoVotesCastYet] else [])
  ++ (if (0 <? totalVotes)%Z then [TotalVotes totalVotes] else []).

(** Line 257: [Total | Voted | Pending]. *)
Record Summary := { total : nat; voted : nat; pending : nat }.

Definition voter_summary (voters : list Voter.t) : Summary :=
  {| total := List.length voters;
     voted := List.length (filter (fun v => Voter.has_voted v) voters);
     pending := List.length (filter (fun v => negb (Voter.has_voted v)) voters) |}.

(** Line 271: [voter.full_name || "No name provided"]. *)
Definition display_name (voter : Voter.t) : string :=
  match Voter.full_name voter with
  | Some n => match or_null n with Some shown => shown | None => "No name provided" end
  | None => "No name provided"
  end.

(** Lines 277-285: the badge of a voter row. *)
Inductive Badge := BadgeVoted | BadgePending.

Definition status_badge (voter : Voter.t) : Badge :=
  if Voter.has_voted voter then BadgeVoted else BadgePending.

(** Lines 262-288: the body of the voters tab. *)
Inductive VotersBody :=
  | NoVotersRegistered
  | VoterRows (rows : list (string * string * Badge)).

Definition voters_body (voters : list Voter.t) : VotersBody :=
  match voters with
  | [] => NoVotersRegistered
  | _ :: _ =>
      VoterRows (map (fun voter => (display_name voter, Voter.email voter, status_badge voter))
                     voters)
  end.

End AdminPanelView.

(** * Properties of the voter view *)

Section HandleVoteProperties.
Import CandidateList.

Variable userId : string.
Variable onVoteSuccess_throws : option Thrown.
Variable candidateId : string.

(** Every run that passes the [hasVoted] guard, by the way the insert
    settles: the completion, the final cells and the effects in order. *)
Lemma handleVote_submitted (reply : Awaited (Response unit)) (s : State) :
  run (handleVote userId false onVoteSuccess_throws reply candidateId) s =
  (Normal tt,
   (with_votingFor None s,
    InsertVote userId candidateId ::
    match reply with
    | Rejected e => generic_failure e
    | Resolved r =>
        match error r with
        | Some err =>
            if strict_eq (code err) "23505"
            then [Toast ToastError "You have already cast your vote!"]
            else generic_failure (ThrownPostgrest err)
        | None =>
            Toast ToastSuccess "Vote cast successfully!" :: CallOnVoteSuccess ::
            match onVoteSuccess_throws with
            | Some e => generic_failure e
            | None => []
            end
        end
    end)).
Proof.
  unfold run, handleVote, try_finally, try_catch, await, bind.
  destruct reply as [[d [err|]]|e]; cbn [error emit fst snd ret throw app].
  - destruct (strict_eq (code err) "23505"); reflexivity.
  - destruct onVoteSuccess_throws; reflexivity.
  - reflexivity.
Qed.

(** C1. With [hasVoted] set, [handleVote] returns at once: from any state
    and any earlier log it adds the single notification "You have
    already voted!", requests no insert (whatever the backend would have
    answered), and leaves every state cell, [votingFor] included, as it
    was. *)
Theorem handleVote_hasVoted_rejected
    (reply : Awaited (Response unit)) (s : State) (log : list Event) :
  handleVote userId true onVoteSuccess_throws reply candidateId (s, log) =
    (Normal tt, (s, log ++ [Toast ToastError "You have already voted!"]))
  /\ filter event_is_insert
       (effects (handleVote userId true onVoteSuccess_throws reply candidateId) s) = []
  /\ votingFor
       (final_state (handleVote userId true onVoteSuccess_throws reply candidateId) s)
     = votingFor s.
Proof.
  repeat split.
Qed.

(** C2. When the insert resolves with an error object, a code equal to
    "23505" yields the notification "You have already cast your vote!"
    and nothing else (no console output, no failure notification, a
    normal return); every other code is logged and yields the
    notification "Failed to cast vote". *)
Theorem handleVote_insert_error
    (d : option unit) (err : PostgrestError) (s : State) :
  let call :=
    handleVote userId false onVoteSuccess_throws
               (Resolved {| data := d; error := Some err |}) candidateId in
  completion call s = Normal tt
  /\ (code err = "23505" ->
      effects call s =
        [InsertVote userId candidateId;
         Toast ToastError "You have already cast your vote!"])
  /\ (code err <> "23505" ->
      effects call s =
        [InsertVote userId candidateId;
         ConsoleError "Error casting vote:" (ThrownPostgrest err);
         Toast ToastError "Failed to cast vote"]).
Proof.
  cbv zeta. unfold completion, effects.
  rewrite handleVote_submitted. cbn [fst snd error].
  split; [reflexivity|]. split; intros Hcode.
  - unfold strict_eq. rewrite (proj2 (String.eqb_eq _ _) Hcode). reflexivity.
  - unfold strict_eq. rewrite (proj2 (String.eqb_neq _ _) Hcode). reflexivity.
Qed.

(** C7. A call that passed the [hasVoted] guard, and so set [votingFor]
    to the candidate, completes normally with [votingFor] back at [null]
    and the buttons enabled again, however the insert settles (resolved
    without error, resolved with any error, rejected) and whether or not
    the callback throws. *)
Theorem handleVote_returns_to_idle (reply : Awaited (Response unit)) (s : State) :
  let call := handleVote userId false onVoteSuccess_throws reply candidateId in
  completion call s = Normal tt
  /\ votingFor (final_state call s) = None
  /\ button_disabled false (final_state call s) = false
  /\ loading (final_state call s) = loading s.
Proof.
  cbv zeta. unfold completion, final_state.
  rewrite handleVote_submitted. repeat split.
Qed.

(** C10. [onVoteSuccess] is called exactly once when the insert resolves
    without an error, and not at all when it resolves with an error
    (code "23505" included), when it rejects, or when the [hasVoted]
    guard returns early. *)
Theorem onVoteSuccess_only_on_success
    (d : option unit) (err : PostgrestError) (e : Thrown)
    (reply : Awaited (Response unit)) (s : State) :
  let calls r hasVoted :=
    List.length (filter event_is_callback
      (effects (handleVote userId hasVoted onVoteSuccess_throws r candidateId) s)) in
  calls (Resolved {| data := d; error := None |}) false = 1%nat
  /\ calls (Resolved {| data := d; error := Some err |}) false = 0%nat
  /\ calls (Rejected e) false = 0%nat
  /\ calls reply true = 0%nat.
Proof.
  cbv zeta. unfold effects.
  rewrite !handleVote_submitted. cbn [fst snd error].
  repeat split.
  - destruct onVoteSuccess_throws; reflexivity.
  - destruct (strict_eq (code err) "23505"); reflexivity.
Qed.

End HandleVoteProperties.

Lemma handleVote_insert_error_witness :
  effects (CandidateList.handleVote "u1" false None
             (Resolved {| data := None;
                          error := Some {| code := "42501"; message := "denied" |} |})
             "a")
          {| CandidateList.loading := false; CandidateList.votingFor := None |} =
    [CandidateList.InsertVote "u1" "a";
     CandidateList.ConsoleError "Error casting vote:"
       (ThrownPostgrest {| code := "42501"; message := "denied" |});
     CandidateList.Toast ToastError "Failed to cast vote"]
  /\ effects (CandidateList.handleVote "u1" false None
             (Resolved {| data := None;
                          error := Some {| code := "23505"; message := "duplicate" |} |})
             "a")
          {| CandidateList.loading := false; CandidateList.votingFor := None |} =
    [CandidateList.InsertVote "u1" "a";
     CandidateList.Toast ToastError "You have already cast your vote!"].
Proof.
  split.
  - apply (handleVote_insert_error "u1" None "a" None
             {| code := "42501"; message := "denied" |}).
    discriminate.
  - apply (handleVote_insert_error "u1" None "a" None
             {| code := "23505"; message := "duplicate" |}).
    reflexivity.
Defined.

(** * Properties of [Array.prototype.sort] with a descending key *)

Section SortDescending.
Context {A : Type}.
Variable key : A -> Z.

Let cmp (a b : A) : Z := (key b - key a)%Z.
Let desc (a b : A) : Prop := (key b <= key a)%Z.
Let has_key (k : Z) (a : A) : bool := (key a =? k)%Z.

Lemma sort_insert_perm (x : A) (l : list A) :
  Permutation (sort_insert cmp x l) (x :: l).
Proof.
  induction l as [|y ys IH]; cbn.
  - apply Permutation_refl.
  - destruct (cmp x y <=? 0)%Z.
    + apply Permutation_refl.
    + apply perm_trans with (y :: x :: ys).
      * now apply perm_skip.
      * apply perm_swap.
Qed.

Lemma array_sort_perm (l : list A) : Permutation (array_sort cmp l) l.
Proof.
  induction l as [|x l IH]; cbn.
  - apply perm_nil.
  - apply perm_trans with (x :: array_sort cmp l).
    + apply sort_insert_perm.
    + now apply perm_skip.
Qed.

Lemma sort_insert_sorted (x : A) (l : list A) :
  StronglySorted desc l -> StronglySorted desc (sort_insert cmp x l).
Proof.
  induction 1 as [|y ys Hs IH Hy]; cbn.
  - repeat constructor.
  - destruct (cmp x y <=? 0)%Z eqn:E.
    + apply Z.leb_le in E. unfold cmp in E.
      constructor.
      * now constructor.
      * constructor.
        -- unfold desc. lia.
        -- eapply Forall_impl; [|exact Hy]. unfold desc. intros; lia.
    + apply Z.leb_gt in E. unfold cmp in E.
      constructor; [exact IH|].
      apply (Permutation_Forall (Permutation_sym (sort_insert_perm x ys))).
      constructor; [unfold desc; lia | exact Hy].
Qed.

Lemma array_sort_sorted (l : list A) : StronglySorted desc (array_sort cmp l).
Proof.
  induction l as [|x l IH]; cbn.
  - constructor.
  - now apply sort_insert_sorted.
Qed.

(** Stability: the elements of any one key keep their order. *)
Lemma sort_insert_stable (k : Z) (x : A) (l : list A) :
  filter (has_key k) (sort_insert cmp x l) = filter (has_key k) (x :: l).
Proof.
  induction l as [|y ys IH]; [reflexivity|].
  cbn [sort_insert].
  destruct (cmp x y <=? 0)%Z eqn:E; [reflexivity|].
  apply Z.leb_gt in E. unfold cmp in E.
  cbn [filter] in *. rewrite IH. unfold has_key.
  destruct (key x =? k)%Z eqn:Ex, (key y =? k)%Z eqn:Ey; try reflexivity.
  apply Z.eqb_eq in Ex, Ey. lia.
Qed.

Lemma array_sort_stable (k : Z) (l : list A) :
  filter (has_key k) (array_sort cmp l) = filter (has_key k) l.
Proof.
  induction l as [|x l IH]; [reflexivity|].
  cbn [array_sort fold_right].
  change (fold_right (sort_insert cmp) [] l) with (array_sort cmp l).
  rewrite sort_insert_stable. cbn [filter]. now rewrite IH.
Qed.

End SortDescending.

(** * Properties of the admin view *)

Section TallyProperties.
Import AdminPanel.

(** Both queries answered with rows: the sorted counts are stored, and
    the two selects are the only effects. *)
Lemma fetchVoteResults_rows (votes : list Vote.t) (cands : list Candidate.t) (s : State) :
  run (fetchVoteResults (rows votes) (rows cands)) s =
  (Normal tt,
   (with_voteResults (array_sort by_vote_count_desc (voteCounts votes cands)) s,
    [SelectVotes "candidate_id"; SelectCandidates "id, name, party"])).
Proof. reflexivity. Qed.

Lemma filter_length_count_occ (votes : list Vote.t) (x : string) :
  List.length (filter (fun vote => strict_eq (Vote.candidate_id vote) x) votes) =
  count_occ string_dec (map Vote.candidate_id votes) x.
Proof.
  induction votes as [|v vs IH]; [reflexivity|].
  cbn [filter map count_occ]. unfold strict_eq at 1.
  destruct (string_dec (Vote.candidate_id v) x) as [He|Hne].
  - rewrite (proj2 (String.eqb_eq _ _) He). cbn. now rewrite IH.
  - rewrite (proj2 (String.eqb_neq _ _) Hne). exact IH.
Qed.

(** The mapped objects of lines 95-100 are the specification's entries. *)
Lemma voteCounts_spec (votes : list Vote.t) (cands : list Candidate.t) :
  voteCounts votes cands = map (TallySpec.entry votes) cands.
Proof.
  unfold voteCounts, TallySpec.entry, TallySpec.count.
  apply map_ext. intros c. now rewrite filter_length_count_occ.
Qed.

Lemma filter_map_commute {X Y} (f : X -> Y) (p : Y -> bool) (l : list X) :
  filter p (map f l) = map f (filter (fun x => p (f x)) l).
Proof.
  induction l as [|x l IH]; [reflexivity|].
  cbn. destruct (p (f x)); cbn; now rewrite IH.
Qed.

(** C3. The stored tally depends on the fetched votes and candidates
    only (not on the state before the fetch).  It holds exactly one
    entry per candidate, carrying that candidate's id, name and party
    and as count the number of vote records whose candidate reference is
    that id; the entries are in descending order of count; and the
    entries of any one count appear in the order of their candidates in
    the fetched list. *)
Theorem tally_derivation (votes : list Vote.t) (cands : list Candidate.t) (s s' : State) :
  let tally := voteResults (final_state (fetchVoteResults (rows votes) (rows cands)) s) in
  tally = voteResults (final_state (fetchVoteResults (rows votes) (rows cands)) s')
  /\ Permutation tally (map (TallySpec.entry votes) cands)
  /\ StronglySorted
       (fun a b => (VoteCount.vote_count b <= VoteCount.vote_count a)%Z) tally
  /\ (forall k : Z,
        filter (fun r => (VoteCount.vote_count r =? k)%Z) tally =
        map (TallySpec.entry votes)
            (filter (fun c => (TallySpec.count votes c =? k)%Z) cands)).
Proof.
  cbv zeta. unfold final_state. rewrite !fetchVoteResults_rows.
  cbn [fst snd voteResults with_voteResults].
  rewrite voteCounts_spec.
  split; [reflexivity|]. split; [|split].
  - apply (array_sort_perm VoteCount.vote_count).
  - apply (array_sort_sorted VoteCount.vote_count).
  - intros k.
    change by_vote_count_desc
      with (fun a b : VoteCount.t => (VoteCount.vote_count b - VoteCount.vote_count a)%Z).
    rewrite (array_sort_stable VoteCount.vote_count k).
    apply filter_map_commute.
Qed.

Lemma totalVotes_from (l : list VoteCount.t) (a : Z) :
  fold_left (fun sum result => (sum + VoteCount.vote_count result)%Z) l a =
  (a + totalVotes l)%Z.
Proof.
  unfold totalVotes. revert a.
  induction l as [|x l IH]; intros a; cbn [fold_left].
  - lia.
  - rewrite IH, (IH (0 + _)%Z). lia.
Qed.

Lemma totalVotes_cons (x : VoteCount.t) (l : list VoteCount.t) :
  totalVotes (x :: l) = (VoteCount.vote_count x + totalVotes l)%Z.
Proof.
  unfold totalVotes at 1. cbn [fold_left]. rewrite totalVotes_from. lia.
Qed.

Lemma totalVotes_perm (l l' : list VoteCount.t) :
  Permutation l l' -> totalVotes l = totalVotes l'.
Proof.
  induction 1 as [|x l l' _ IH|x y l|l l' l'' _ IH1 _ IH2].
  - reflexivity.
  - rewrite !totalVotes_cons. now rewrite IH.
  - rewrite !totalVotes_cons. lia.
  - now rewrite IH1.
Qed.

(** The reduce of line 175 adds up the specification's counts. *)
Lemma totalVotes_entries (votes : list Vote.t) (cands : list Candidate.t) :
  totalVotes (map (TallySpec.entry votes) cands) =
  fold_right Z.add 0%Z (map (TallySpec.count votes) cands).
Proof.
  induction cands as [|c cs IH]; [reflexivity|].
  cbn [map fold_right]. rewrite totalVotes_cons, IH. reflexivity.
Qed.

(** One more vote record adds to the total the number of fetched candidates
    it references. *)
Lemma total_count_cons (v : Vote.t) (vs : list Vote.t) (cands : list Candidate.t) :
  fold_right Z.add 0%Z (map (TallySpec.count (v :: vs)) cands) =
  (fold_right Z.add 0%Z (map (TallySpec.count vs) cands) +
   Z.of_nat (count_occ string_dec (map Candidate.id cands) (Vote.candidate_id v)))%Z.
Proof.
  induction cands as [|c cs IH]; [reflexivity|].
  cbn [map fold_right]. rewrite IH.
  unfold TallySpec.count. cbn [map count_occ].
  destruct (string_dec (Vote.candidate_id v) (Candidate.id c)) as [He|Hne];
    destruct (string_dec (Candidate.id c) (Vote.candidate_id v)) as [He'|Hne'];
    try congruence; lia.
Qed.

Lemma total_count_nil (cands : list Candidate.t) :
  fold_right Z.add 0%Z (map (TallySpec.count []) cands) = 0%Z.
Proof.
  induction cands as [|c cs IH]; [reflexivity|].
  cbn [map fold_right]. rewrite IH. reflexivity.
Qed.

Lemma references_In (cands : list Candidate.t) (v : Vote.t) :
  TallySpec.references cands v = true <->
  In (Vote.candidate_id v) (map Candidate.id cands).
Proof.
  unfold TallySpec.references, strict_eq.
  rewrite existsb_exists, in_map_iff. split.
  - intros [c [Hc He]]. apply String.eqb_eq in He. now exists c.
  - intros [c [He Hc]]. exists c. split; [exact Hc|]. now apply String.eqb_eq.
Qed.

(** With distinct candidate ids no vote record is counted twice. *)
Lemma total_count_le (votes : list Vote.t) (cands : list Candidate.t) :
  NoDup (map Candidate.id cands) ->
  (fold_right Z.add 0%Z (map (TallySpec.count votes) cands)
   <= Z.of_nat (List.length votes))%Z.
Proof.
  intros Hnd. induction votes as [|v vs IH].
  - rewrite total_count_nil. cbn. lia.
  - rewrite total_count_cons. cbn [List.length].
    pose proof (proj1 (NoDup_count_occ string_dec _) Hnd (Vote.candidate_id v)). lia.
Qed.

Lemma total_count_referenced (votes : list Vote.t) (cands : list Candidate.t) :
  NoDup (map Candidate.id cands) ->
  Forall (fun v => TallySpec.references cands v = true) votes ->
  fold_right Z.add 0%Z (map (TallySpec.count votes) cands) = Z.of_nat (List.length votes).
Proof.
  intros Hnd. induction 1 as [|v vs Hv _ IH].
  - apply total_count_nil.
  - rewrite total_count_cons, IH. cbn [List.length].
    apply references_In in Hv.
    rewrite (proj1 (NoDup_count_occ' string_dec _) Hnd _ Hv). lia.
Qed.

Lemma total_count_orphan (votes : list Vote.t) (cands : list Candidate.t) :
  NoDup (map Candidate.id cands) ->
  Exists (fun v => TallySpec.references cands v = false) votes ->
  (fold_right Z.add 0%Z (map (TallySpec.count votes) cands)
   < Z.of_nat (List.length votes))%Z.
Proof.
  intros Hnd. induction 1 as [v vs Hv|v vs _ IH];
    rewrite total_count_cons; cbn [List.length].
  - assert (Hno : ~ In (Vote.candidate_id v) (map Candidate.id cands)).
    { intros Hin. apply references_In in Hin. congruence. }
    rewrite (proj1 (count_occ_not_In string_dec _ _) Hno).
    pose proof (total_count_le vs cands Hnd). lia.
  - pose proof (proj1 (NoDup_count_occ string_dec _) Hnd (Vote.candidate_id v)). lia.
Qed.

(** The total shown under the tally, from the fetched rows. *)
Lemma totalVotes_fetched (votes : list Vote.t) (cands : list Candidate.t) (s : State) :
  totalVotes (voteResults (final_state (fetchVoteResults (rows votes) (rows cands)) s)) =
  fold_right Z.add 0%Z (map (TallySpec.count votes) cands).
Proof.
  unfold final_state. rewrite fetchVoteResults_rows.
  cbn [fst snd voteResults with_voteResults].
  rewrite (totalVotes_perm _ (voteCounts votes cands)).
  - rewrite voteCounts_spec. apply totalVotes_entries.
  - apply (array_sort_perm VoteCount.vote_count).
Qed.

(** Votes that reference no fetched candidate change no count. *)
Lemma count_ignores_orphans (votes : list Vote.t) (cands : list Candidate.t)
    (c : Candidate.t) :
  In c cands ->
  TallySpec.count (filter (TallySpec.references cands) votes) c = TallySpec.count votes c.
Proof.
  intros Hc. unfold TallySpec.count. f_equal.
  induction votes as [|v vs IH]; [reflexivity|].
  cbn [filter]. destruct (TallySpec.references cands v) eqn:Hr.
  - cbn [map count_occ]. now rewrite IH.
  - cbn [map count_occ]. rewrite IH.
    destruct (string_dec (Vote.candidate_id v) (Candidate.id c)) as [He|Hne];
      [|reflexivity].
    assert (Hin : In (Vote.candidate_id v) (map Candidate.id cands)).
    { rewrite He. now apply in_map. }
    apply references_In in Hin. congruence.
Qed.

(** C5, as the code has it. [totalVotes] is the sum of the stored counts;
    when the fetched candidates have distinct ids and every fetched vote
    record references one of them, that sum is the number of vote
    records. *)
Theorem totalVotes_counts_referenced_votes
    (votes : list Vote.t) (cands : list Candidate.t) (s : State) :
  NoDup (map Candidate.id cands) ->
  Forall (fun v => TallySpec.references cands v = true) votes ->
  let tally := voteResults (final_state (fetchVoteResults (rows votes) (rows cands)) s) in
  totalVotes tally = fold_right Z.add 0%Z (map VoteCount.vote_count tally)
  /\ totalVotes tally = Z.of_nat (List.length votes).
Proof.
  intros Hnd Hall. cbv zeta. split.
  - generalize (voteResults
                  (final_state (fetchVoteResults (rows votes) (rows cands)) s)).
    intros l. induction l as [|x l IH]; [reflexivity|].
    rewrite totalVotes_cons, IH. reflexivity.
  - rewrite totalVotes_fetched. now apply total_count_referenced.
Qed.

(** C9. A vote record whose candidate reference matches no fetched
    candidate (ids distinct, as the table's key makes them) changes no
    tally entry: the stored tally is the one of the remaining records.
    [totalVotes] is the sum of the per-candidate counts, and with such a
    record among the fetched ones it is strictly below the number of vote
    records. *)
Theorem orphan_votes_excluded
    (votes : list Vote.t) (cands : list Candidate.t) (s : State) :
  NoDup (map Candidate.id cands) ->
  Exists (fun v => TallySpec.references cands v = false) votes ->
  let tally := voteResults (final_state (fetchVoteResults (rows votes) (rows cands)) s) in
  tally =
    voteResults
      (final_state
         (fetchVoteResults (rows (filter (TallySpec.references cands) votes)) (rows cands))
         s)
  /\ totalVotes tally = fold_right Z.add 0%Z (map (TallySpec.count votes) cands)
  /\ (totalVotes tally < Z.of_nat (List.length votes))%Z.
Proof.
  intros Hnd Horphan. cbv zeta. split; [|split].
  - unfold final_state. rewrite !fetchVoteResults_rows.
    cbn [fst snd voteResults with_voteResults]. f_equal.
    rewrite !voteCounts_spec. apply map_ext_in. intros c Hc.
    unfold TallySpec.entry. now rewrite count_ignores_orphans.
  - apply totalVotes_fetched.
  - rewrite totalVotes_fetched. now apply total_count_orphan.
Qed.

End TallyProperties.

Lemma totalVotes_orphan_counterexample :
  let votes := [Scenario.vote "u1" "a"; Scenario.vote "u2" "z"] in
  let cands := [Scenario.alice; Scenario.bob] in
  let tally :=
    AdminPanel.voteResults
      (final_state (AdminPanel.fetchVoteResults (AdminPanel.rows votes) (AdminPanel.rows cands))
                   AdminPanel.initial) in
  votes <> [] /\ cands <> []
  /\ tally = [Scenario.entry Scenario.alice 1; Scenario.entry Scenario.bob 0]
  /\ AdminPanel.totalVotes tally = 1%Z
  /\ AdminPanel.totalVotes tally <> Z.of_nat (List.length votes).
Proof.
  cbv zeta. repeat split; try discriminate.
Qed.

Lemma totalVotes_counts_referenced_votes_witness :
  AdminPanel.totalVotes
    (AdminPanel.voteResults
       (final_state
          (AdminPanel.fetchVoteResults
             (AdminPanel.rows [Scenario.vote "u1" "a"; Scenario.vote "u2" "a";
                               Scenario.vote "u3" "b"])
             (AdminPanel.rows [Scenario.alice; Scenario.bob]))
          AdminPanel.initial)) = 3%Z.
Proof.
  apply (totalVotes_counts_referenced_votes
           [Scenario.vote "u1" "a"; Scenario.vote "u2" "a"; Scenario.vote "u3" "b"]
           [Scenario.alice; Scenario.bob] AdminPanel.initial).
  - repeat constructor; cbn; intuition discriminate.
  - repeat constructor.
Defined.

Lemma orphan_votes_excluded_witness :
  (AdminPanel.totalVotes
     (AdminPanel.voteResults
        (final_state
           (AdminPanel.fetchVoteResults
              (AdminPanel.rows [Scenario.vote "u1" "a"; Scenario.vote "u2" "z"])
              (AdminPanel.rows [Scenario.alice; Scenario.bob]))
           AdminPanel.initial)) < 2)%Z.
Proof.
  apply (orphan_votes_excluded
           [Scenario.vote "u1" "a"; Scenario.vote "u2" "z"]
           [Scenario.alice; Scenario.bob] AdminPanel.initial).
  - repeat constructor; cbn; intuition discriminate.
  - right. left. reflexivity.
Defined.

Section VoterProperties.
Import AdminPanel.

Lemma fetchVoters_rows (profiles : list Profile.t) (votes : list Vote.t) (s : State) :
  run (fetchVoters (rows profiles) (rows votes)) s =
  (Normal tt,
   (with_voters (votersWithStatus profiles votes) s,
    [SelectProfiles "id, email, full_name, created_at" "created_at" false;
     SelectVotes "voter_id"])).
Proof. reflexivity. Qed.

Lemma some_voter_id (votes : list Vote.t) (x : string) :
  existsb (fun vote => strict_eq (Vote.voter_id vote) x) votes = true <->
  exists vote, In vote votes /\ Vote.voter_id vote = x.
Proof.
  rewrite existsb_exists. unfold strict_eq.
  split; intros [v [Hin He]]; exists v; (split; [exact Hin|]);
    now apply String.eqb_eq.
Qed.

(** C6. The stored voter list depends on the fetched profiles and votes
    only.  It runs along the profile list, in the same order and of the
    same length; each voter carries its profile's id, email, name and
    registration time, and [has_voted] is [true] exactly when some vote
    record has that profile's id as its voter reference. *)
Theorem voters_labelled (profiles : list Profile.t) (votes : list Vote.t) (s s' : State) :
  let labelled := voters (final_state (fetchVoters (rows profiles) (rows votes)) s) in
  labelled = voters (final_state (fetchVoters (rows profiles) (rows votes)) s')
  /\ Forall2
       (fun profile voter =>
          Voter.id voter = Profile.id profile
          /\ Voter.email voter = Profile.email profile
          /\ Voter.full_name voter = Profile.full_name profile
          /\ Voter.created_at voter = Profile.created_at profile
          /\ (Voter.has_voted voter = true <->
              exists vote, In vote votes /\ Vote.voter_id vote = Profile.id profile))
       profiles labelled.
Proof.
  cbv zeta. unfold final_state. rewrite !fetchVoters_rows.
  cbn [fst snd voters with_voters]. split; [reflexivity|].
  induction profiles as [|p ps IH]; cbn [votersWithStatus map].
  - constructor.
  - constructor; [|exact IH]. cbn. repeat split; try apply some_voter_id.
Qed.

End VoterProperties.

Section AddCandidateProperties.
Import AdminPanel.


End AddCandidateProperties.


(** * Properties of the rest of the voter view *)

Section RosterProperties.
Import CandidateListView.

Lemma fetchCandidates_run (reply : Awaited (Response (list Candidate.t))) (s : State) :
  run (fetchCandidates reply) s =
  match Reply.failure reply, reply with
  | None, Resolved r =>
      (Normal tt,
       (with_loading false
          (with_candidates (match data r with Some d => d | None => [] end) s),
        [SelectCandidates "*" "name"]))
  | Some e, _ | None, Rejected e =>
      (Normal tt,
       (with_loading false s,
        [SelectCandidates "*" "name";
         ConsoleError "Error fetching candidates:" e;
         Toast ToastError "Failed to load candidates"]))
  end.
Proof.
  destruct reply as [[d [err|]]|e]; reflexivity.
Qed.

(** X1. [fetchCandidates] of the voter view never throws to its caller
    and always ends with [loading] false and [votingFor] untouched.  The
    roster is replaced only when the query resolves without an error (a
    [null] data field counts as the empty roster); when the query
    resolves with an error or rejects, the roster is kept and the only
    notification is "Failed to load candidates". *)
Theorem voter_roster_fetch
    (reply : Awaited (Response (list Candidate.t))) (d : option (list Candidate.t))
    (e : Thrown) (s : State) :
  (completion (fetchCandidates reply) s = Normal tt
   /\ loading (final_state (fetchCandidates reply) s) = false
   /\ votingFor (final_state (fetchCandidates reply) s) = votingFor s)
  /\ candidates
       (final_state (fetchCandidates (Resolved {| data := d; error := None |})) s)
     = match d with Some roster => roster | None => [] end
  /\ (Reply.failure reply = Some e ->
      candidates (final_state (fetchCandidates reply) s) = candidates s
      /\ effects (fetchCandidates reply) s =
           [SelectCandidates "*" "name";
            ConsoleError "Error fetching candidates:" e;
            Toast ToastError "Failed to load candidates"]).
Proof.
  unfold completion, final_state, effects. rewrite !fetchCandidates_run.
  split; [|split].
  - destruct (Reply.failure reply), reply; repeat split.
  - reflexivity.
  - intros Hf. rewrite Hf. destruct reply; repeat split.
Qed.

(** X2. Once [fetchCandidates] has settled the loading skeleton is gone:
    the component shows "No candidates available" exactly when the
    stored roster is empty, and otherwise one card per stored candidate,
    in roster order, with the roster size in the badge.  A first fetch
    that fails therefore shows "No candidates available". *)
Theorem voter_view_after_fetch
    (hasVoted : bool) (reply : Awaited (Response (list Candidate.t)))
    (e : Thrown) (s : State) :
  let s' := final_state (fetchCandidates reply) s in
  render hasVoted s' <> Skeleton
  /\ (render hasVoted s' = NoCandidates <-> candidates s' = [])
  /\ (candidates s' <> [] ->
      render hasVoted s' =
        Roster (List.length (candidates s')) (map (card hasVoted s') (candidates s'))
      /\ map key (map (card hasVoted s') (candidates s')) = map Candidate.id (candidates s'))
  /\ (Reply.failure reply = Some e ->
      render hasVoted (final_state (fetchCandidates reply) initial) = NoCandidates).
Proof.
  cbv zeta. unfold final_state. rewrite !fetchCandidates_run.
  assert (Hl : forall t, render hasVoted (with_loading false t) =
                         match candidates t with
                         | [] => NoCandidates
                         | _ :: _ =>
                             Roster (List.length (candidates t))
                                    (map (card hasVoted (with_loading false t)) (candidates t))
                         end) by reflexivity.
  assert (Hc : forall t, candidates (with_loading false t) = candidates t) by reflexivity.
  split; [|split; [|split]].
  - destruct (Reply.failure reply), reply; cbn [fst snd]; rewrite Hl;
      match goal with |- context [match ?l with [] => _ | _ :: _ => _ end] =>
        destruct l; discriminate end.
  - destruct (Reply.failure reply), reply; cbn [fst snd]; rewrite Hl, Hc;
      match goal with |- context [match ?l with [] => _ | _ :: _ => _ end] =>
        destruct l; split; (reflexivity || discriminate) end.
  - intros Hne.
    destruct (Reply.failure reply), reply; cbn [fst snd] in *;
      rewrite Hl; rewrite Hc in *;
      match goal with |- context [match ?l with [] => _ | _ :: _ => _ end] =>
        destruct l; [congruence|] end;
      (split; [reflexivity|]); rewrite map_map; reflexivity.
  - intros Hf. rewrite Hf. destruct reply; reflexivity.
Qed.

(** X3. The buttons of the roster follow the submission state.  With
    [hasVoted] set every button is disabled and reads "Voted".  While a
    vote for candidate [c] is in flight every button is disabled, the
    cards of candidate [c] read "Casting Vote..." and all others "Vote".
    Otherwise every button is enabled and reads "Vote". *)
Theorem buttons_follow_submission (hasVoted : bool) (s : State) (c : string) :
  let cards := map (card hasVoted s) (candidates s) in
  (hasVoted = true ->
     Forall (fun k => disabled k = true /\ label k = LabelVoted) cards)
  /\ (hasVoted = false -> votingFor s = Some c ->
     Forall (fun k => disabled k = true
                      /\ (key k = c -> label k = LabelCasting)
                      /\ (key k <> c -> label k = LabelVote)) cards)
  /\ (hasVoted = false -> votingFor s = None ->
     Forall (fun k => disabled k = false /\ label k = LabelVote) cards).
Proof.
  cbv zeta. unfold votingFor.
  split; [|split]; intros; apply Forall_forall; intros k Hk;
    apply in_map_iff in Hk; destruct Hk as [x [<- _]];
    unfold card, button_label, CandidateList.button_disabled, votingFor;
    cbn [disabled label key]; subst hasVoted.
  - split; reflexivity.
  - match goal with H : CandidateList.votingFor _ = Some _ |- _ => rewrite H end.
    cbn. unfold strict_eq. repeat split.
    + intros ->. now rewrite String.eqb_refl.
    + intros Hne. destruct (String.eqb_spec c (Candidate.id x)); congruence.
  - match goal with H : CandidateList.votingFor _ = None |- _ => rewrite H end.
    split; reflexivity.
Qed.

(** X4. A click on an enabled button always gets past the [hasVoted]
    guard of [handleVote]: it requests exactly one insert, of the vote of
    the calling user for the candidate of that card. *)
Theorem enabled_button_submits
    (userId : string) (onVoteSuccess_throws : option Thrown)
    (reply : Awaited (Response unit)) (hasVoted : bool) (s : State) (k : Card) :
  In k (map (card hasVoted s) (candidates s)) ->
  disabled k = false ->
  filter CandidateList.event_is_insert
    (effects (CandidateList.handleVote userId hasVoted onVoteSuccess_throws reply (key k))
             (cells s))
  = [CandidateList.InsertVote userId (key k)].
Proof.
  intros Hk Hd. apply in_map_iff in Hk. destruct Hk as [x [<- _]].
  cbn [disabled key card] in *. unfold CandidateList.button_disabled in Hd.
  destruct hasVoted; [discriminate|].
  unfold effects. rewrite handleVote_submitted. cbn [fst snd filter CandidateList.event_is_insert].
  f_equal.
  destruct reply as [[d [err|]]|e]; cbn [error].
  - destruct (strict_eq (code err) "23505"); reflexivity.
  - destruct onVoteSuccess_throws; reflexivity.
  - reflexivity.
Qed.

End RosterProperties.

(** * Properties of the rest of the admin view *)

Section AdminFetchProperties.
Import AdminPanel.

(** X5. [fetchVoteResults] never throws to its caller and touches no
    cell but [voteResults].  When the votes query resolves with an error
    or rejects, the candidates query is not sent, the stored tally is
    kept and the only notification is "Failed to load vote results"; the
    same holds, after both queries were sent, when the candidates query
    is the one that fails. *)
Theorem fetchVoteResults_failure
    (votes_reply : Awaited (Response (list Vote.t)))
    (candidates_reply : Awaited (Response (list Candidate.t)))
    (e : Thrown) (s : State) :
  let call := fetchVoteResults votes_reply candidates_reply in
  (completion call s = Normal tt
   /\ candidates (final_state call s) = candidates s
   /\ voters (final_state call s) = voters s
   /\ loading (final_state call s) = loading s
   /\ newCandidate (final_state call s) = newCandidate s)
  /\ (Reply.failure votes_reply = Some e ->
      run call s =
        (Normal tt,
         (s, [SelectVotes "candidate_id";
              ConsoleError "Error fetching vote results:" e;
              Toast ToastError "Failed to load vote results"])))
  /\ (Reply.failure votes_reply = None ->
      Reply.failure candidates_reply = Some e ->
      run call s =
        (Normal tt,
         (s, [SelectVotes "candidate_id"; SelectCandidates "id, name, party";
              ConsoleError "Error fetching vote results:" e;
              Toast ToastError "Failed to load vote results"]))).
Proof.
  cbv zeta. unfold completion, final_state. split; [|split].
  - destruct votes_reply as [[dv [ev|]]|ev];
      [repeat split| |repeat split].
    destruct candidates_reply as [[dc [ec|]]|ec];
      [repeat split| |repeat split].
    destruct dc as [[|c cs]|], dv as [vs|]; repeat split.
  - intros Hf. destruct votes_reply as [[dv [ev|]]|ev]; cbn in Hf;
      inversion Hf; subst; reflexivity.
  - intros Hv Hc. destruct votes_reply as [[dv [ev|]]|ev]; cbn in Hv; try discriminate.
    destruct candidates_reply as [[dc [ec|]]|ec]; cbn in Hc;
      inversion Hc; subst; reflexivity.
Qed.

(** X6. [fetchVoters] never throws to its caller and touches no cell
    but [voters].  When the profiles query resolves with an error or
    rejects, the votes query is not sent, the stored voter list is kept
    and the only notification is "Failed to load voters"; the same
    holds, after both queries were sent, when the votes query is the
    one that fails. *)
Theorem fetchVoters_failure
    (profiles_reply : Awaited (Response (list Profile.t)))
    (votes_reply : Awaited (Response (list Vote.t)))
    (e : Thrown) (s : State) :
  let call := fetchVoters profiles_reply votes_reply in
  (completion call s = Normal tt
   /\ candidates (final_state call s) = candidates s
   /\ voteResults (final_state call s) = voteResults s
   /\ loading (final_state call s) = loading s
   /\ newCandidate (final_state call s) = newCandidate s)
  /\ (Reply.failure profiles_reply = Some e ->
      run call s =
        (Normal tt,
         (s, [SelectProfiles "id, email, full_name, created_at" "created_at" false;
              ConsoleError "Error fetching voters:" e;
              Toast ToastError "Failed to load voters"])))
  /\ (Reply.failure profiles_reply = None ->
      Reply.failure votes_reply = Some e ->
      run call s =
        (Normal tt,
         (s, [SelectProfiles "id, email, full_name, created_at" "created_at" false;
              SelectVotes "voter_id";
              ConsoleError "Error fetching voters:" e;
              Toast ToastError "Failed to load voters"]))).
Proof.
  cbv zeta. unfold completion, final_state. split; [|split].
  - destruct profiles_reply as [[dp [ep|]]|ep];
      [repeat split| |repeat split].
    destruct votes_reply as [[dv [ev|]]|ev];
      [repeat split| |repeat split].
    destruct dp as [[|p ps]|], dv as [vs|]; repeat split.
  - intros Hf. destruct profiles_reply as [[dp [ep|]]|ep]; cbn in Hf;
      inversion Hf; subst; reflexivity.
  - intros Hp Hv. destruct profiles_reply as [[dp [ep|]]|ep]; cbn in Hp; try discriminate.
    destruct votes_reply as [[dv [ev|]]|ev]; cbn in Hv;
      inversion Hv; subst; reflexivity.
Qed.

(** X7. When the insert of [handleAddCandidate] resolves with an error
    or rejects, the handler returns normally with every cell as it was,
    the typed form included, starts no fetch, and notifies "Failed to
    add candidate". *)
Theorem handleAddCandidate_failure
    (reply : Awaited (Response unit)) (e : Thrown) (s : State) :
  Reply.failure reply = Some e ->
  run (handleAddCandidate reply) s =
    (Normal tt,
     (s, [PreventDefault; InsertCandidate (candidate_row (newCandidate s));
          ConsoleError "Error adding candidate:" e;
          Toast ToastError "Failed to add candidate"])).
Proof.
  intros Hf. destruct reply as [[d [err|]]|e']; cbn in Hf;
    inversion Hf; subst; reflexivity.
Qed.

End AdminFetchProperties.

Section AdminRosterProperties.
Import AdminPanel AdminPanelView.

(** X8. [fetchCandidates] of the admin view never throws to its caller,
    always ends with [loading] false, and leaves the tally, the voter
    list and the form alone.  The roster is replaced only when the query
    resolves without an error (a [null] data field counts as the empty
    roster); otherwise it is kept and the only notification is "Failed
    to load candidates". *)
Theorem admin_roster_fetch
    (reply : Awaited (Response (list Candidate.t))) (d : option (list Candidate.t))
    (e : Thrown) (s : State) :
  (completion (fetchCandidates reply) s = Normal tt
   /\ loading (final_state (fetchCandidates reply) s) = false
   /\ voteResults (final_state (fetchCandidates reply) s) = voteResults s
   /\ voters (final_state (fetchCandidates reply) s) = voters s
   /\ newCandidate (final_state (fetchCandidates reply) s) = newCandidate s)
  /\ candidates
       (final_state (fetchCandidates (Resolved {| data := d; error := None |})) s)
     = match d with Some roster => roster | None => [] end
  /\ (Reply.failure reply = Some e ->
      candidates (final_state (fetchCandidates reply) s) = candidates s
      /\ effects (fetchCandidates reply) s =
           [SelectCandidates "*" "name";
            ConsoleError "Error fetching candidates:" e;
            Toast ToastError "Failed to load candidates"]).
Proof.
  unfold completion, final_state, effects. split; [|split].
  - destruct reply as [[d' [err|]]|e']; repeat split.
  - reflexivity.
  - intros Hf. destruct reply as [[d' [err|]]|e']; cbn in Hf;
      inversion Hf; subst; repeat split.
Qed.

(** X9. [handleDeleteCandidate] sends exactly one delete, for the rows
    whose [id] is the given one, returns normally and changes no cell
    itself.  It starts [fetchCandidates] and [fetchVoteResults], in that
    order, exactly when the delete resolves without an error; otherwise
    it starts nothing and notifies "Failed to delete candidate". *)
Theorem handleDeleteCandidate_refreshes_on_success
    (id : string) (reply : Awaited (Response unit)) (e : Thrown) (s : State) :
  let call := handleDeleteCandidate id reply in
  (completion call s = Normal tt
   /\ final_state call s = s
   /\ filter event_is_delete (effects call s) = [DeleteCandidate "id" id])
  /\ (Reply.failure reply = None ->
      effects call s =
        [DeleteCandidate "id" id;
         Toast ToastSuccess "Candidate deleted successfully";
         Start FetchCandidates; Start FetchVoteResults])
  /\ (Reply.failure reply = Some e ->
      effects call s =
        [DeleteCandidate "id" id;
         ConsoleError "Error deleting candidate:" e;
         Toast ToastError "Failed to delete candidate"]).
Proof.
  cbv zeta. unfold completion, final_state, effects. split; [|split].
  - destruct reply as [[d [err|]]|e']; repeat split.
  - intros Hf. destruct reply as [[d [err|]]|e']; cbn in Hf;
      try discriminate; reflexivity.
  - intros Hf. destruct reply as [[d [err|]]|e']; cbn in Hf;
      inversion Hf; subst; reflexivity.
Qed.

End AdminRosterProperties.

Section TallyOrderProperties.
Import AdminPanel AdminPanelView.

(** X10. The stored tally does not depend on the order in which the
    vote rows come back (the votes query has no [order] clause). *)
Theorem tally_ignores_vote_order
    (votes votes' : list Vote.t) (cands : list Candidate.t) (s : State) :
  Permutation votes votes' ->
  voteResults (final_state (fetchVoteResults (rows votes) (rows cands)) s) =
  voteResults (final_state (fetchVoteResults (rows votes') (rows cands)) s).
Proof.
  intros Hp. unfold final_state. rewrite !fetchVoteResults_rows.
  cbn [fst snd voteResults with_voteResults]. f_equal.
  rewrite !voteCounts_spec. apply map_ext. intros c.
  unfold TallySpec.entry, TallySpec.count. do 2 f_equal.
  apply Permutation_count_occ. now apply Permutation_map.
Qed.

Lemma existsb_perm {X} (f : X -> bool) (l l' : list X) :
  Permutation l l' -> existsb f l = existsb f l'.
Proof.
  induction 1 as [|x l l' _ IH|x y l|l l' l'' _ IH1 _ IH2]; cbn.
  - reflexivity.
  - now rewrite IH.
  - destruct (f x), (f y); reflexivity.
  - now rewrite IH1.
Qed.

(** X11. The stored voter list, labels included, does not depend on the
    order in which the vote rows come back. *)
Theorem voters_ignore_vote_order
    (profiles : list Profile.t) (votes votes' : list Vote.t) (s : State) :
  Permutation votes votes' ->
  voters (final_state (fetchVoters (rows profiles) (rows votes)) s) =
  voters (final_state (fetchVoters (rows profiles) (rows votes')) s).
Proof.
  intros Hp. unfold final_state. rewrite !fetchVoters_rows.
  cbn [fst snd voters with_voters]. unfold votersWithStatus.
  apply map_ext. intros p. f_equal. now apply existsb_perm.
Qed.

(** Sorting entries that all have the same count moves nothing. *)
Lemma array_sort_all_zero (l : list VoteCount.t) :
  Forall (fun r => VoteCount.vote_count r = 0%Z) l ->
  array_sort by_vote_count_desc l = l.
Proof.
  induction 1 as [|x l Hx Hl IH]; [reflexivity|].
  cbn [array_sort fold_right].
  change (fold_right (sort_insert by_vote_count_desc) [] l)
    with (array_sort by_vote_count_desc l).
  rewrite IH. destruct Hl as [|y ys Hy _]; [reflexivity|].
  cbn [sort_insert]. unfold by_vote_count_desc. rewrite Hx, Hy. reflexivity.
Qed.

Lemma totalVotes_all_zero (l : list VoteCount.t) :
  Forall (fun r => VoteCount.vote_count r = 0%Z) l -> totalVotes l = 0%Z.
Proof.
  induction 1 as [|x l Hx _ IH]; [reflexivity|].
  rewrite totalVotes_cons, Hx, IH. reflexivity.
Qed.

Lemma count_unreferenced (votes : list Vote.t) (cands : list Candidate.t)
    (c : Candidate.t) :
  Forall (fun v => TallySpec.references cands v = false) votes ->
  In c cands -> TallySpec.count votes c = 0%Z.
Proof.
  intros Hall Hc. rewrite <- (count_ignores_orphans votes cands c Hc).
  replace (filter (TallySpec.references cands) votes) with (@nil Vote.t);
    [reflexivity|].
  induction Hall as [|v vs Hv _ IH]; [reflexivity|].
  cbn [filter]. now rewrite Hv.
Qed.

(** X12. When no fetched vote record references a fetched candidate (in
    particular when there are no vote records), the tally lists the
    candidates in the order they were fetched, each with count 0, and
    the results tab reads "No votes cast yet". *)
Theorem tally_without_referenced_votes
    (votes : list Vote.t) (cands : list Candidate.t) (s : State) :
  Forall (fun v => TallySpec.references cands v = false) votes ->
  let tally := voteResults (final_state (fetchVoteResults (rows votes) (rows cands)) s) in
  map VoteCount.candidate_id tally = map Candidate.id cands
  /\ Forall (fun r => VoteCount.vote_count r = 0%Z) tally
  /\ results_footer tally = [NoVotesCastYet].
Proof.
  intros Hall. cbv zeta. unfold final_state. rewrite fetchVoteResults_rows.
  cbn [fst snd voteResults with_voteResults]. rewrite voteCounts_spec.
  assert (Hz : Forall (fun r => VoteCount.vote_count r = 0%Z)
                      (map (TallySpec.entry votes) cands)).
  { apply Forall_forall. intros r Hr. apply in_map_iff in Hr.
    destruct Hr as [c [<- Hc]]. cbn. now apply (count_unreferenced votes cands). }
  rewrite (array_sort_all_zero _ Hz). split; [|split].
  - rewrite map_map. reflexivity.
  - exact Hz.
  - unfold results_footer. rewrite (totalVotes_all_zero _ Hz). reflexivity.
Qed.

Lemma count_le_totalVotes (l : list VoteCount.t) :
  Forall (fun r => (0 <= VoteCount.vote_count r)%Z) l ->
  (0 <= totalVotes l)%Z /\
  Forall (fun r => (0 <= VoteCount.vote_count r <= totalVotes l)%Z) l.
Proof.
  induction 1 as [|x l Hx _ [IH0 IH]].
  - split; [reflexivity | constructor].
  - rewrite totalVotes_cons. split; [lia|].
    constructor; [lia|].
    eapply Forall_impl; [|exact IH]. cbn. intros; lia.
Qed.

(** X13. In a fetched tally no count is negative and none exceeds
    [totalVotes], so no bar is wider than the whole.  The results tab
    shows exactly one of its two closing lines: "No votes cast yet" when
    [totalVotes] is 0, and "Total Votes: n" with [n = totalVotes]
    otherwise. *)
Theorem tally_bounds_and_footer
    (votes : list Vote.t) (cands : list Candidate.t) (s : State) :
  let tally := voteResults (final_state (fetchVoteResults (rows votes) (rows cands)) s) in
  Forall (fun r => (0 <= VoteCount.vote_count r <= totalVotes tally)%Z) tally
  /\ ((totalVotes tally = 0%Z /\ results_footer tally = [NoVotesCastYet])
      \/ ((0 < totalVotes tally)%Z
          /\ results_footer tally = [TotalVotes (totalVotes tally)])).
Proof.
  cbv zeta. unfold final_state. rewrite fetchVoteResults_rows.
  cbn [fst snd voteResults with_voteResults].
  set (tally := array_sort by_vote_count_desc (voteCounts votes cands)).
  assert (Hnn : Forall (fun r => (0 <= VoteCount.vote_count r)%Z) tally).
  { apply (Permutation_Forall
             (Permutation_sym (array_sort_perm VoteCount.vote_count
                                               (voteCounts votes cands)))).
    apply Forall_forall. intros r Hr. apply in_map_iff in Hr.
    destruct Hr as [c [<- _]]. cbn. lia. }
  destruct (count_le_totalVotes tally Hnn) as [H0 Hb].
  split; [exact Hb|]. unfold results_footer.
  destruct (Z.eq_dec (totalVotes tally) 0) as [Hz|Hnz].
  - left. rewrite Hz. split; reflexivity.
  - right. assert (Hpos : (0 < totalVotes tally)%Z) by lia.
    split; [exact Hpos|].
    rewrite (proj2 (Z.eqb_neq _ _) Hnz), (proj2 (Z.ltb_lt _ _) Hpos). reflexivity.
Qed.

End TallyOrderProperties.

Section PercentageProperties.
Import AdminPanel.

(** Up to 2^63 the conversion is the exact one of IEEE 754. *)
Lemma number_of_Z_exact (z : Z) :
  (0 <= z < 2 ^ 63)%Z ->
  Prim2SF (number_of_Z z) = binary_normalize prec emax z 0 false.
Proof.
  intros Hz. unfold number_of_Z.
  assert (E : Uint63.to_Z (Uint63.of_Z z) = z).
  { rewrite Uint63.of_Z_spec. apply Z.mod_small. exact Hz. }
  rewrite <- E at 1 2. rewrite <- of_uint63_spec, SF2Prim_Prim2SF. reflexivity.
Qed.

Lemma Forall2_map_right {X Y} (P : X -> Y -> Prop) (f : X -> Y) (l : list X) :
  (forall x, In x l -> P x (f x)) -> Forall2 P l (map f l).
Proof.
  induction l as [|x l IH]; intros H; cbn [map]; constructor.
  - apply H. now left.
  - apply IH. intros y Hy. apply H. now right.
Qed.

(** C4. The results tab has one row per tally entry, in order.  For a
    stored tally (counts not negative, total within the integers a
    number holds exactly), when [totalVotes] is positive the percentage
    of an entry is the IEEE 754 binary64 product by 100 of the binary64
    quotient of its count by [totalVotes], and that quotient is the one
    division evaluated for the row; when [totalVotes] is zero the
    percentage is 0 and no division is evaluated. *)
Theorem percentage_guarded (results : list VoteCount.t) :
  Forall (fun r => (0 <= VoteCount.vote_count r)%Z) results ->
  (totalVotes results < 2 ^ 53)%Z ->
  let total := totalVotes results in
  Forall2
    (fun entry row =>
       fst row = entry
       /\ ((0 < total)%Z ->
           Prim2SF (fst (snd row)) =
             SF64mul
               (SF64div
                  (binary_normalize prec emax (VoteCount.vote_count entry) 0 false)
                  (binary_normalize prec emax total 0 false))
               (binary_normalize prec emax 100 0 false)
           /\ snd (snd row) =
                [{| numerator := VoteCount.vote_count entry; denominator := total |}])
       /\ (total = 0%Z -> snd row = (PrimFloat.zero, [])))
    results (result_rows results).
Proof.
  intros Hnn Hbound. cbv zeta. unfold result_rows.
  apply Forall2_map_right. intros r Hr. cbn [fst snd].
  destruct (count_le_totalVotes results Hnn) as [_ Hb].
  rewrite Forall_forall in Hb. specialize (Hb r Hr).
  assert (Hpow : (2 ^ 53 < 2 ^ 63)%Z) by reflexivity.
  split; [reflexivity|]. split.
  - intros Hpos. unfold percentage. rewrite (proj2 (Z.ltb_lt _ _) Hpos).
    unfold and_then, divide, pure. cbn [fst snd app].
    split; [|reflexivity].
    rewrite mul_spec, div_spec.
    rewrite !number_of_Z_exact; [reflexivity| | |]; lia.
  - intros Hz. unfold percentage. rewrite Hz. reflexivity.
Qed.

End PercentageProperties.

Lemma percentage_guarded_witness :
  Forall2
    (fun entry row =>
       fst row = entry
       /\ ((0 < 3)%Z ->
           Prim2SF (fst (snd row)) =
             SF64mul
               (SF64div
                  (binary_normalize prec emax (VoteCount.vote_count entry) 0 false)
                  (binary_normalize prec emax 3 0 false))
               (binary_normalize prec emax 100 0 false)
           /\ snd (snd row) =
                [{| AdminPanel.numerator := VoteCount.vote_count entry;
                    AdminPanel.denominator := 3 |}])
       /\ (3%Z = 0%Z -> snd row = (PrimFloat.zero, [])))
    [Scenario.entry Scenario.alice 2; Scenario.entry Scenario.bob 1]
    (AdminPanel.result_rows
       [Scenario.entry Scenario.alice 2; Scenario.entry Scenario.bob 1])
  /\ map (fun row => Prim2SF (fst (snd row)))
         (AdminPanel.result_rows
            [Scenario.entry Scenario.alice 2; Scenario.entry Scenario.bob 1])
     = [S754_finite false 4691249611844266 (-46);
        S754_finite false 4691249611844266 (-47)]
  /\ map snd (AdminPanel.result_rows [Scenario.entry Scenario.alice 0])
     = [(PrimFloat.zero, [])].
Proof.
  split; [|split].
  - apply (percentage_guarded
             [Scenario.entry Scenario.alice 2; Scenario.entry Scenario.bob 1]).
    + repeat constructor; cbn; lia.
    + reflexivity.
  - vm_compute. reflexivity.
  - reflexivity.
Defined.

Section VotersTabProperties.
Import AdminPanel AdminPanelView.

Lemma filter_partition_length {X} (f : X -> bool) (l : list X) :
  (List.length (filter f l) + List.length (filter (fun x => negb (f x)) l))%nat
  = List.length l.
Proof.
  induction l as [|x l IH]; [reflexivity|].
  cbn [filter]. destruct (f x); cbn [negb List.length]; lia.
Qed.

(** X14. The three numbers above the voter list add up: Voted plus
    Pending is Total, for every stored voter list; after a fetch that
    returned rows, Total is the number of fetched profiles. *)
Theorem voter_summary_adds_up
    (stored : list Voter.t) (profiles : list Profile.t) (votes : list Vote.t)
    (s : State) :
  (voted (voter_summary stored) + pending (voter_summary stored))%nat
    = total (voter_summary stored)
  /\ total (voter_summary
             (voters (final_state (fetchVoters (rows profiles) (rows votes)) s)))
     = List.length profiles.
Proof.
  split.
  - apply filter_partition_length.
  - unfold final_state. rewrite fetchVoters_rows.
    cbn [fst snd voters with_voters voter_summary total].
    unfold votersWithStatus. apply length_map.
Qed.

(** The profiles labelled as having voted, counted on the profile list. *)
Lemma voted_on_profiles (profiles : list Profile.t) (votes : list Vote.t) :
  List.length (filter (fun v => Voter.has_voted v) (votersWithStatus profiles votes)) =
  List.length
    (filter (fun p => existsb (fun vote => strict_eq (Vote.voter_id vote) (Profile.id p))
                              votes)
            profiles).
Proof.
  unfold votersWithStatus. rewrite filter_map_commute, length_map. reflexivity.
Qed.

Lemma no_vote_of (votes : list Vote.t) (x : string) :
  ~ In x (map Vote.voter_id votes) ->
  existsb (fun vote => strict_eq (Vote.voter_id vote) x) votes = false.
Proof.
  intros Hno.
  destruct (existsb (fun vote => strict_eq (Vote.voter_id vote) x) votes) eqn:E;
    [|reflexivity].
  apply some_voter_id in E. destruct E as [v [Hin <-]].
  exfalso. apply Hno. now apply in_map.
Qed.

(** One more vote, of a voter with no vote yet, labels as many further
    profiles as carry that voter's id. *)
Lemma voted_step (v : Vote.t) (vs : list Vote.t) (profiles : list Profile.t) :
  ~ In (Vote.voter_id v) (map Vote.voter_id vs) ->
  List.length
    (filter (fun p => existsb (fun vote => strict_eq (Vote.voter_id vote) (Profile.id p))
                              (v :: vs))
            profiles) =
  (List.length
     (filter (fun p => existsb (fun vote => strict_eq (Vote.voter_id vote) (Profile.id p))
                               vs)
             profiles)
   + count_occ string_dec (map Profile.id profiles) (Vote.voter_id v))%nat.
Proof.
  intros Hnew. induction profiles as [|p ps IH]; [reflexivity|].
  cbn [filter existsb map count_occ] in *. unfold strict_eq at 1.
  destruct (string_dec (Profile.id p) (Vote.voter_id v)) as [He|Hne].
  - rewrite He, String.eqb_refl. cbn [orb].
    rewrite (no_vote_of vs _ Hnew). cbn [List.length]. rewrite IH. lia.
  - assert (Hb : String.eqb (Vote.voter_id v) (Profile.id p) = false).
    { apply String.eqb_neq. congruence. }
    rewrite Hb. cbn [orb].
    destruct (existsb _ vs); cbn [List.length]; rewrite IH; lia.
Qed.

Lemma voted_is_vote_count (profiles : list Profile.t) (votes : list Vote.t) :
  NoDup (map Profile.id profiles) ->
  NoDup (map Vote.voter_id votes) ->
  Forall (fun v => In (Vote.voter_id v) (map Profile.id profiles)) votes ->
  List.length
    (filter (fun p => existsb (fun vote => strict_eq (Vote.voter_id vote) (Profile.id p))
                              votes)
            profiles) = List.length votes.
Proof.
  intros Hp Hv Hall. induction Hall as [|v vs Hin _ IH].
  - cbn [existsb]. induction profiles as [|p ps IHp]; [reflexivity|].
    cbn [filter]. apply IHp. now inversion Hp.
  - cbn [map] in Hv. inversion Hv as [|x l Hnew Hrest]; subst.
    rewrite (voted_step v vs profiles Hnew), (IH Hrest).
    rewrite (proj1 (NoDup_count_occ' string_dec _) Hp _ Hin).
    cbn [List.length]. lia.
Qed.

(** X15. On a consistent snapshot the two tabs agree.  When profile ids
    are distinct, no voter has two vote records, every vote record is of
    a fetched profile and for a fetched candidate, and candidate ids are
    distinct, then Voted on the voters tab is the number of vote records
    and equals [totalVotes] on the results tab. *)
Theorem voted_matches_totalVotes
    (profiles : list Profile.t) (votes : list Vote.t) (cands : list Candidate.t)
    (s : State) :
  NoDup (map Profile.id profiles) ->
  NoDup (map Vote.voter_id votes) ->
  Forall (fun v => In (Vote.voter_id v) (map Profile.id profiles)) votes ->
  NoDup (map Candidate.id cands) ->
  Forall (fun v => TallySpec.references cands v = true) votes ->
  let summary :=
    voter_summary (voters (final_state (fetchVoters (rows profiles) (rows votes)) s)) in
  let tally := voteResults (final_state (fetchVoteResults (rows votes) (rows cands)) s) in
  voted summary = List.length votes
  /\ totalVotes tally = Z.of_nat (voted summary).
Proof.
  intros Hp Hv Hin Hc Href. cbv zeta.
  assert (Hvoted :
    voted (voter_summary
             (voters (final_state (fetchVoters (rows profiles) (rows votes)) s)))
    = List.length votes).
  { unfold final_state. rewrite fetchVoters_rows.
    cbn [fst snd voters with_voters voter_summary voted].
    rewrite voted_on_profiles. now apply voted_is_vote_count. }
  split; [exact Hvoted|].
  rewrite Hvoted, totalVotes_fetched. now apply total_count_referenced.
Qed.

(** X16. The voters tab reads "No voters registered yet" exactly when
    the stored list is empty; otherwise it has one row per voter, in
    order.  A row never shows an empty name: it shows the stored full
    name when that is a non-empty text, and "No name provided" when it is
    [null] or empty. *)
Theorem voters_tab_rows (stored : list Voter.t) (voter : Voter.t) (n : string) :
  (voters_body stored = NoVotersRegistered <-> stored = [])
  /\ (stored <> [] ->
      voters_body stored =
        VoterRows (map (fun v => (display_name v, Voter.email v, status_badge v)) stored))
  /\ display_name voter <> ""
  /\ (Voter.full_name voter = Some n -> n <> "" -> display_name voter = n)
  /\ (Voter.full_name voter = None \/ Voter.full_name voter = Some "" ->
      display_name voter = "No name provided").
Proof.
  split; [|split; [|split; [|split]]].
  - destruct stored; split; (reflexivity || discriminate).
  - destruct stored; [congruence|reflexivity].
  - unfold display_name. destruct (Voter.full_name voter) as [[|a r]|]; discriminate.
  - intros Hn Hne. unfold display_name. rewrite Hn.
    destruct n; [congruence|reflexivity].
  - intros [Hn|Hn]; unfold display_name; rewrite Hn; reflexivity.
Qed.

End VotersTabProperties.

(** * The properties above on concrete rows *)

Lemma voter_roster_fetch_witness :
  CandidateListView.candidates
    (final_state (CandidateListView.fetchCandidates (Rejected (ThrownOther "network")))
       (CandidateListView.with_candidates [Scenario.alice] CandidateListView.initial))
  = [Scenario.alice]
  /\ effects (CandidateListView.fetchCandidates (Rejected (ThrownOther "network")))
       (CandidateListView.with_candidates [Scenario.alice] CandidateListView.initial)
     = [CandidateListView.SelectCandidates "*" "name";
        CandidateListView.ConsoleError "Error fetching candidates:" (ThrownOther "network");
        CandidateListView.Toast ToastError "Failed to load candidates"].
Proof.
  destruct (voter_roster_fetch (Rejected (ThrownOther "network")) None
              (ThrownOther "network")
              (CandidateListView.with_candidates [Scenario.alice]
                                                 CandidateListView.initial))
    as [_ [_ H]].
  apply H. reflexivity.
Defined.

Lemma voter_view_after_fetch_witness :
  CandidateListView.render false
    (final_state
       (CandidateListView.fetchCandidates
          (Resolved {| data := None;
                       error := Some {| code := "42501"; message := "denied" |} |}))
       CandidateListView.initial)
  = CandidateListView.NoCandidates.
Proof.
  destruct (voter_view_after_fetch false
              (Resolved {| data := None;
                           error := Some {| code := "42501"; message := "denied" |} |})
              (ThrownPostgrest {| code := "42501"; message := "denied" |})
              CandidateListView.initial)
    as [_ [_ [_ H]]].
  apply H. reflexivity.
Defined.

Lemma buttons_follow_submission_witness :
  Forall (fun k => CandidateListView.disabled k = true
                   /\ (CandidateListView.key k = "a" ->
                       CandidateListView.label k = CandidateListView.LabelCasting)
                   /\ (CandidateListView.key k <> "a" ->
                       CandidateListView.label k = CandidateListView.LabelVote))
    (map (CandidateListView.card false
            {| CandidateListView.candidates := [Scenario.alice; Scenario.bob];
               CandidateListView.cells :=
                 {| CandidateList.loading := false;
                    CandidateList.votingFor := Some "a" |} |})
         [Scenario.alice; Scenario.bob]).
Proof.
  destruct (buttons_follow_submission false
              {| CandidateListView.candidates := [Scenario.alice; Scenario.bob];
                 CandidateListView.cells :=
                   {| CandidateList.loading := false;
                      CandidateList.votingFor := Some "a" |} |} "a")
    as [_ [H _]].
  apply H; reflexivity.
Defined.

Lemma enabled_button_submits_witness :
  filter CandidateList.event_is_insert
    (effects (CandidateList.handleVote "u1" false None (AdminPanel.rows tt) "b")
             {| CandidateList.loading := false; CandidateList.votingFor := None |})
  = [CandidateList.InsertVote "u1" "b"].
Proof.
  apply (enabled_button_submits "u1" None (AdminPanel.rows tt) false
           {| CandidateListView.candidates := [Scenario.alice; Scenario.bob];
              CandidateListView.cells :=
                {| CandidateList.loading := false;
                   CandidateList.votingFor := None |} |}
           (CandidateListView.card false
              {| CandidateListView.candidates := [Scenario.alice; Scenario.bob];
                 CandidateListView.cells :=
                   {| CandidateList.loading := false;
                      CandidateList.votingFor := None |} |}
              Scenario.bob)).
  - right. left. reflexivity.
  - reflexivity.
Defined.

Lemma fetchVoteResults_failure_witness :
  run (AdminPanel.fetchVoteResults
         (Rejected (ThrownOther "network")) (AdminPanel.rows [Scenario.alice]))
      AdminPanel.initial
  = (Normal tt,
     (AdminPanel.initial,
      [AdminPanel.SelectVotes "candidate_id";
       AdminPanel.ConsoleError "Error fetching vote results:" (ThrownOther "network");
       AdminPanel.Toast ToastError "Failed to load vote results"])).
Proof.
  destruct (fetchVoteResults_failure
              (Rejected (ThrownOther "network")) (AdminPanel.rows [Scenario.alice])
              (ThrownOther "network") AdminPanel.initial)
    as [_ [H _]].
  apply H. reflexivity.
Defined.

Lemma fetchVoters_failure_witness :
  run (AdminPanel.fetchVoters
         (AdminPanel.rows [Scenario.profile "u1"]) (Rejected (ThrownOther "network")))
      AdminPanel.initial
  = (Normal tt,
     (AdminPanel.initial,
      [AdminPanel.SelectProfiles "id, email, full_name, created_at" "created_at" false;
       AdminPanel.SelectVotes "voter_id";
       AdminPanel.ConsoleError "Error fetching voters:" (ThrownOther "network");
       AdminPanel.Toast ToastError "Failed to load voters"])).
Proof.
  destruct (fetchVoters_failure
              (AdminPanel.rows [Scenario.profile "u1"]) (Rejected (ThrownOther "network"))
              (ThrownOther "network") AdminPanel.initial)
    as [_ [_ H]].
  apply H; reflexivity.
Defined.

Lemma handleAddCandidate_failure_witness :
  AdminPanel.newCandidate
    (final_state
       (AdminPanel.handleAddCandidate
          (Resolved {| data := None;
                       error := Some {| code := "42501"; message := "denied" |} |}))
       (AdminPanel.with_newCandidate (Scenario.form "text" "") AdminPanel.initial))
  = Scenario.form "text" "".
Proof.
  unfold final_state.
  rewrite (handleAddCandidate_failure
             (Resolved {| data := None;
                          error := Some {| code := "42501"; message := "denied" |} |})
             (ThrownPostgrest {| code := "42501"; message := "denied" |})
             (AdminPanel.with_newCandidate (Scenario.form "text" "") AdminPanel.initial)
             eq_refl).
  reflexivity.
Defined.

Lemma admin_roster_fetch_witness :
  AdminPanel.candidates
    (final_state (AdminPanelView.fetchCandidates (Rejected (ThrownOther "network")))
       (AdminPanelView.with_candidates [Scenario.alice] AdminPanel.initial))
  = [Scenario.alice]
  /\ effects (AdminPanelView.fetchCandidates (Rejected (ThrownOther "network")))
       (AdminPanelView.with_candidates [Scenario.alice] AdminPanel.initial)
     = [AdminPanelView.SelectCandidates "*" "name";
        AdminPanelView.ConsoleError "Error fetching candidates:" (ThrownOther "network");
        AdminPanelView.Toast ToastError "Failed to load candidates"].
Proof.
  destruct (admin_roster_fetch (Rejected (ThrownOther "network")) None
              (ThrownOther "network")
              (AdminPanelView.with_candidates [Scenario.alice] AdminPanel.initial))
    as [_ [_ H]].
  apply H. reflexivity.
Defined.

Lemma handleDeleteCandidate_refreshes_on_success_witness :
  effects (AdminPanelView.handleDeleteCandidate "a" (AdminPanel.rows tt)) AdminPanel.initial
  = [AdminPanelView.DeleteCandidate "id" "a";
     AdminPanelView.Toast ToastSuccess "Candidate deleted successfully";
     AdminPanelView.Start AdminPanel.FetchCandidates;
     AdminPanelView.Start AdminPanel.FetchVoteResults]
  /\ effects (AdminPanelView.handleDeleteCandidate "a" (Rejected (ThrownOther "network")))
             AdminPanel.initial
     = [AdminPanelView.DeleteCandidate "id" "a";
        AdminPanelView.ConsoleError "Error deleting candidate:" (ThrownOther "network");
        AdminPanelView.Toast ToastError "Failed to delete candidate"].
Proof.
  split.
  - destruct (handleDeleteCandidate_refreshes_on_success "a" (AdminPanel.rows tt)
                (ThrownOther "network") AdminPanel.initial) as [_ [H _]].
    apply H. reflexivity.
  - destruct (handleDeleteCandidate_refreshes_on_success "a"
                (Rejected (ThrownOther "network"))
                (ThrownOther "network") AdminPanel.initial) as [_ [_ H]].
    apply H. reflexivity.
Defined.

Lemma tally_ignores_vote_order_witness :
  AdminPanel.voteResults
    (final_state
       (AdminPanel.fetchVoteResults
          (AdminPanel.rows [Scenario.vote "u1" "a"; Scenario.vote "u2" "b"])
          (AdminPanel.rows [Scenario.alice; Scenario.bob]))
       AdminPanel.initial)
  = AdminPanel.voteResults
      (final_state
         (AdminPanel.fetchVoteResults
            (AdminPanel.rows [Scenario.vote "u2" "b"; Scenario.vote "u1" "a"])
            (AdminPanel.rows [Scenario.alice; Scenario.bob]))
         AdminPanel.initial).
Proof.
  apply (tally_ignores_vote_order
           [Scenario.vote "u1" "a"; Scenario.vote "u2" "b"]
           [Scenario.vote "u2" "b"; Scenario.vote "u1" "a"]).
  apply perm_swap.
Defined.

Lemma voters_ignore_vote_order_witness :
  AdminPanel.voters
    (final_state
       (AdminPanel.fetchVoters
          (AdminPanel.rows [Scenario.profile "u1"; Scenario.profile "u2"])
          (AdminPanel.rows [Scenario.vote "u1" "a"; Scenario.vote "u3" "b"]))
       AdminPanel.initial)
  = AdminPanel.voters
      (final_state
         (AdminPanel.fetchVoters
            (AdminPanel.rows [Scenario.profile "u1"; Scenario.profile "u2"])
            (AdminPanel.rows [Scenario.vote "u3" "b"; Scenario.vote "u1" "a"]))
         AdminPanel.initial).
Proof.
  apply (voters_ignore_vote_order
           [Scenario.profile "u1"; Scenario.profile "u2"]
           [Scenario.vote "u1" "a"; Scenario.vote "u3" "b"]
           [Scenario.vote "u3" "b"; Scenario.vote "u1" "a"]).
  apply perm_swap.
Defined.

Lemma tally_without_referenced_votes_witness :
  map VoteCount.candidate_id
    (AdminPanel.voteResults
       (final_state
          (AdminPanel.fetchVoteResults
             (AdminPanel.rows [Scenario.vote "u1" "z"])
             (AdminPanel.rows [Scenario.alice; Scenario.bob]))
          AdminPanel.initial))
  = ["a"; "b"].
Proof.
  apply (tally_without_referenced_votes
           [Scenario.vote "u1" "z"] [Scenario.alice; Scenario.bob] AdminPanel.initial).
  repeat constructor.
Defined.

Lemma voted_matches_totalVotes_witness :
  AdminPanelView.voted
    (AdminPanelView.voter_summary
       (AdminPanel.voters
          (final_state
             (AdminPanel.fetchVoters
                (AdminPanel.rows [Scenario.profile "u1"; Scenario.profile "u2"])
                (AdminPanel.rows [Scenario.vote "u1" "a"]))
             AdminPanel.initial)))
  = 1%nat.
Proof.
  apply (voted_matches_totalVotes
           [Scenario.profile "u1"; Scenario.profile "u2"]
           [Scenario.vote "u1" "a"] [Scenario.alice] AdminPanel.initial).
  - repeat constructor; cbn; intuition discriminate.
  - repeat constructor; cbn; intuition discriminate.
  - repeat constructor.
  - repeat constructor; cbn; intuition discriminate.
  - repeat constructor.
Defined.

Lemma voters_tab_rows_witness :
  AdminPanelView.display_name
    {| Voter.id := "u1"; Voter.email := "u1@example.org"; Voter.full_name := Some "Ann";
       Voter.created_at := "2024-01-01"; Voter.has_voted := true |}
  = "Ann".
Proof.
  destruct (voters_tab_rows []
              {| Voter.id := "u1"; Voter.email := "u1@example.org";
                 Voter.full_name := Some "Ann";
                 Voter.created_at := "2024-01-01"; Voter.has_voted := true |} "Ann")
    as [_ [_ [_ [H _]]]].
  apply H; [reflexivity|discriminate].
Defined.
